(** * Diagram.from_svg: translation of a rendered SVG into an Excalidraw scene

    A shallow embedding of [idaes_connectivity/excalidraw_model.py].

    - Python values that end up in the JSON document are [pyval]s; the
      element records are insertion-ordered dictionaries, as in the source.
    - Element dictionaries are shared between [model.elements],
      [shape_elt_map] and local variables; they live in a store ([heap])
      and are named by their index in it.
    - Exceptions are results of type [exn]; a raise ends the translation.
    - [float] arithmetic is taken over the rationals: binary64 rounding,
      infinities and NaN are not modelled.
    - [str] is modelled by [string] (8-bit characters); the character
      classes of [re] are their ASCII parts. *)

From stdpp Require Import gmap strings list fin_maps.
From Stdlib Require Import Ascii String QArith Qabs Qround Lqa.

Set Warnings "-register-all".

Local Open Scope Z_scope.

(** ** Numbers *)

(** A Python number: an [int] or a [float]. *)
Inductive num : Type :=
| NInt (z : Z)
| NFloat (q : Q).

Definition num_Q (n : num) : Q :=
  match n with
  | NInt z => inject_Z z
  | NFloat q => q
  end.

(** [a + b]: [int] when both are, [float] otherwise. *)
Definition num_add (a b : num) : num :=
  match a, b with
  | NInt x, NInt y => NInt (x + y)
  | _, _ => NFloat (num_Q a + num_Q b)
  end.

Definition num_sub (a b : num) : num :=
  match a, b with
  | NInt x, NInt y => NInt (x - y)
  | _, _ => NFloat (num_Q a - num_Q b)
  end.

Definition num_mul (a b : num) : num :=
  match a, b with
  | NInt x, NInt y => NInt (x * y)
  | _, _ => NFloat (num_Q a * num_Q b)
  end.

(** [a / b], true division: always a [float]. The source only divides by
    the literal 2. *)
Definition num_truediv (a b : num) : num :=
  NFloat (num_Q a / num_Q b).

Definition num_abs (a : num) : num :=
  match a with
  | NInt x => NInt (Z.abs x)
  | NFloat q => NFloat (Qabs q)
  end.

(** [a > b] *)
Definition num_gtb (a b : num) : bool :=
  negb (Qle_bool (num_Q a) (num_Q b)).

(** [a < b] as a proposition, for statements. *)
Definition num_lt (a b : num) : Prop :=
  (num_Q a < num_Q b)%Q.

(** [int(q)] of a float: truncation towards zero. *)
Definition int_of_float (q : Q) : Z :=
  Z.quot (Qnum q) (Z.pos (Qden q)).

Declare Scope num_scope.
Delimit Scope num_scope with num.
Bind Scope num_scope with num.
Infix "+" := num_add : num_scope.
Infix "-" := num_sub : num_scope.
Infix "*" := num_mul : num_scope.
Infix "/" := num_truediv : num_scope.

(** ** Values of the JSON document *)

Inductive pyval : Type :=
| VNone
| VBool (b : bool)
| VNum (n : num)
| VStr (s : string)
| VList (l : list pyval)
| VDict (d : list (string * pyval)).

(** A Python [dict] with string keys, in insertion order. *)
Abbreviation pydict := (list (string * pyval)).

Definition VInt (z : Z) : pyval := VNum (NInt z).

Fixpoint dict_get {A : Type} (k : string) (d : list (string * A)) : option A :=
  match d with
  | [] => None
  | (k', v) :: d' => if String.eqb k k' then Some v else dict_get k d'
  end.

(** [d[k] = v]: an existing key keeps its place, a new key goes last. *)
Fixpoint dict_set {A : Type} (k : string) (v : A) (d : list (string * A))
  : list (string * A) :=
  match d with
  | [] => [(k, v)]
  | (k', v') :: d' =>
      if String.eqb k k' then (k', v) :: d' else (k', v') :: dict_set k v d'
  end.

Definition dict_keys {A : Type} (d : list (string * A)) : list string :=
  map fst d.

(** ** Exceptions *)

(** The [raise ValueError(...)] statements of [from_svg], by message, and
    the [ValueError] of the builtin [float]. *)
Inductive value_error : Type :=
| Cannot_find_svg_tag
| shape_without_rect_or_image
| could_not_find_line_endpoints (item_id : string)
| Wrong_number_of_items (got : nat)
| Expected_M_as_first_item
| Expected_C_as_third_item
| could_not_convert_string_to_float (s : string).

Inductive exn : Type :=
| ValueError (e : value_error)
| KeyError (key : string)
| TypeError
| AttributeError
| UnboundLocalError (name : string).

Inductive result (A : Type) : Type :=
| Ok (a : A)
| Raise (e : exn).
Arguments Ok {A} a.
Arguments Raise {A} e.

Definition bind {A B : Type} (m : result A) (k : A -> result B) : result B :=
  match m with
  | Ok a => k a
  | Raise e => Raise e
  end.

Notation "'let*' x ':=' m 'in' k" := (bind m (fun x => k))
  (at level 10, x pattern, m at level 100, k at level 200).

(** [d[k]] on a mapping: [KeyError] when the key is missing. *)
Definition subscript {A : Type} (o : option A) (key : string) : result A :=
  match o with
  | Some a => Ok a
  | None => Raise (KeyError key)
  end.

(** ** Strings and the regular expressions of the source *)

Definition is_digit (c : ascii) : bool :=
  let n := nat_of_ascii c in (48 <=? n)%nat && (n <=? 57)%nat.

(** [\s] *)
Definition is_space (c : ascii) : bool :=
  let n := nat_of_ascii c in
  ((9 <=? n)%nat && (n <=? 13)%nat) || ((28 <=? n)%nat && (n <=? 32)%nat).

(** [\S] *)
Definition not_space (c : ascii) : bool := negb (is_space c).

(** [.] without DOTALL *)
Definition not_newline (c : ascii) : bool := negb (nat_of_ascii c =? 10)%nat.

(** The fragment of [re] the source uses: literal characters, greedy
    repetition of a character class, and capture groups. *)
Inductive atom : Type :=
| Lit (c : ascii)
| Star (p : ascii -> bool)
| Plus (p : ascii -> bool)
| Open
| Close.

Fixpoint lits (s : string) : list atom :=
  match s with
  | EmptyString => []
  | String c s' => Lit c :: lits s'
  end.

(** Length of the longest prefix of [s] whose characters satisfy [p]. *)
Fixpoint run_length (p : ascii -> bool) (s : string) : nat :=
  match s with
  | EmptyString => O
  | String c s' => if p c then S (run_length p s') else O
  end.

Fixpoint drop_chars (n : nat) (s : string) : string :=
  match n, s with
  | O, _ => s
  | S n', String _ s' => drop_chars n' s'
  | S _, EmptyString => EmptyString
  end.

(** Greedy choice with backtracking: try [k], then [k-1], ... down to [lo]. *)
Fixpoint try_down {R : Type} (f : nat -> option R) (lo k : nat) : option R :=
  if (k <? lo)%nat then None else
  match f k with
  | Some r => Some r
  | None =>
      match k with
      | O => None
      | S k' => try_down f lo k'
      end
  end.

(** A match: the spans of the groups, in the order they closed, and the
    position where the match ends. Positions are offsets into the subject. *)
Definition spans : Type := list (nat * nat).

Fixpoint rmatch (pat : list atom) (s : string) (pos : nat)
    (opens : list nat) (caps : spans) : option (spans * nat) :=
  match pat with
  | [] => Some (rev caps, pos)
  | Lit c :: pat' =>
      match s with
      | String c' s' =>
          if Ascii.eqb c c' then rmatch pat' s' (S pos) opens caps else None
      | EmptyString => None
      end
  | Star p :: pat' =>
      try_down (fun k => rmatch pat' (drop_chars k s) (pos + k)%nat opens caps)
               0 (run_length p s)
  | Plus p :: pat' =>
      try_down (fun k => rmatch pat' (drop_chars k s) (pos + k)%nat opens caps)
               1 (run_length p s)
  | Open :: pat' => rmatch pat' s pos (pos :: opens) caps
  | Close :: pat' =>
      match opens with
      | o :: opens' => rmatch pat' s pos opens' ((o, pos) :: caps)
      | [] => None
      end
  end.

(** [re.search]: the match at the leftmost position that has one. *)
Fixpoint search_from (pat : list atom) (s : string) (pos : nat)
  : option (spans * nat) :=
  match rmatch pat s pos [] [] with
  | Some r => Some r
  | None =>
      match s with
      | EmptyString => None
      | String _ s' => search_from pat s' (S pos)
      end
  end.

(** [re.search(pat, s)] as the texts of the groups. *)
Definition re_search (pat : list atom) (s : string) : option (list string) :=
  match search_from pat s 0 with
  | Some (caps, _) =>
      Some (map (fun '(a, b) => substring a (b - a) s) caps)
  | None => None
  end.

(** [font-size:\s*(\d+)px] *)
Definition font_size_re : list atom :=
  lits "font-size:" ++ [Star is_space; Open; Plus is_digit; Close]
  ++ lits "px".

(** [\((\S+)\s*->\s*(\S+)\).*] *)
Definition endpoints_re : list atom :=
  lits "(" ++ [Open; Plus not_space; Close; Star is_space] ++ lits "->"
  ++ [Star is_space; Open; Plus not_space; Close] ++ lits ")"
  ++ [Star not_newline].

(** [int(s)] for a string of decimal digits. *)
Fixpoint int_of_digits (acc : Z) (s : string) : Z :=
  match s with
  | EmptyString => acc
  | String c s' =>
      int_of_digits (10 * acc + (Z.of_nat (nat_of_ascii c) - 48)) s'
  end.

(** [[, ]+], the separator of [re.split] *)
Definition is_sep (c : ascii) : bool :=
  (nat_of_ascii c =? 44)%nat || (nat_of_ascii c =? 32)%nat.

(** [re.split(r"[, ]+", s)]: [cur] is the piece being read, [insep] says
    that the previous character was a separator. *)
Fixpoint re_split (insep : bool) (cur : string) (s : string) : list string :=
  match s with
  | EmptyString => [cur]
  | String c s' =>
      if is_sep c then
        if insep then re_split true EmptyString s'
        else cur :: re_split true EmptyString s'
      else re_split false (cur +:+ String c EmptyString) s'
  end.

Definition split_coords (path_coords : string) : list string :=
  re_split false EmptyString path_coords.

Fixpoint lstrip (s : string) : string :=
  match s with
  | EmptyString => EmptyString
  | String c s' => if is_space c then lstrip s' else s
  end.

Fixpoint rstrip (s : string) : string :=
  match s with
  | EmptyString => EmptyString
  | String c s' =>
      match rstrip s' with
      | EmptyString => if is_space c then EmptyString else String c EmptyString
      | r => String c r
      end
  end.

(** [s.strip()] *)
Definition strip (s : string) : string := rstrip (lstrip s).

Example re_split_path :
  split_coords "M 1 2 C 3,4  5 6 7 8"
  = ["M"; "1"; "2"; "C"; "3"; "4"; "5"; "6"; "7"; "8"]%string.
Proof. reflexivity. Qed.

Example re_split_leading : split_coords " M 1," = [EmptyString; "M"; "1"; EmptyString]%string.
Proof. reflexivity. Qed.

Example endpoints_plain :
  re_search endpoints_re "(Unit_B -> Unit_C)[0]" = Some ["Unit_B"; "Unit_C"]%string.
Proof. reflexivity. Qed.

Example endpoints_backtrack :
  re_search endpoints_re "x(a->b->c))" = Some ["a->b"; "c)"]%string.
Proof. reflexivity. Qed.

Example font_size_found :
  re_search font_size_re "text-anchor:middle;font-size:16px" = Some ["16"]%string.
Proof. reflexivity. Qed.

Example strip_both : strip "  leach mixer
 " = "leach mixer"%string.
Proof. reflexivity. Qed.

(** ** The parsed document *)

(** An [xml.etree.ElementTree.Element]: tag, attributes, text, children. *)
Inductive Element : Type :=
| Elem (tag : string) (attrib : list (string * string))
       (text : option string) (children : list Element).

Definition tag (e : Element) : string :=
  match e with Elem t _ _ _ => t end.

Definition attrib (e : Element) : list (string * string) :=
  match e with Elem _ a _ _ => a end.

Definition text (e : Element) : option string :=
  match e with Elem _ _ t _ => t end.

Definition children (e : Element) : list Element :=
  match e with Elem _ _ _ c => c end.

(** [e.get(key)] *)
Definition get (e : Element) (key : string) : option string :=
  dict_get key (attrib e).

(** [e.get(key, default)] *)
Definition get_default (e : Element) (key default : string) : string :=
  match get e key with
  | Some v => v
  | None => default
  end.

Definition svg_ns : string := "{http://www.w3.org/2000/svg}".
Definition g_tag : string := svg_ns +:+ "g".

(** [e.find(t)]: the first child with tag [t]. *)
Fixpoint find (t : string) (l : list Element) : option Element :=
  match l with
  | [] => None
  | e :: l' => if String.eqb (tag e) t then Some e else find t l'
  end.

(** ** The translation state *)

(** [Bounds = namedtuple("Bounds", "x y width height")] *)
Record Bounds : Type := mkBounds {
  b_x : num;
  b_y : num;
  b_width : num;
  b_height : num
}.

(** The variables [from_svg] keeps across the iterations of its main loop.
    [bounds] is the local of that name: a group without a shape reads the
    value an earlier group left in it. *)
Record state : Type := mkState {
  heap : list pydict;
  elements : list nat;
  files : pydict;
  svg_xc_map : gmap (option string) string;
  shape_bounds : gmap string Bounds;
  shape_elt_map : gmap string nat;
  bounds : option Bounds;
  draws : nat;
  ticks : nat
}.

Definition set_heap (h : list pydict) (st : state) : state :=
  mkState h (elements st) (files st) (svg_xc_map st) (shape_bounds st)
          (shape_elt_map st) (bounds st) (draws st) (ticks st).

Definition set_elements (l : list nat) (st : state) : state :=
  mkState (heap st) l (files st) (svg_xc_map st) (shape_bounds st)
          (shape_elt_map st) (bounds st) (draws st) (ticks st).

Definition set_files (f : pydict) (st : state) : state :=
  mkState (heap st) (elements st) f (svg_xc_map st) (shape_bounds st)
          (shape_elt_map st) (bounds st) (draws st) (ticks st).

Definition set_svg_xc_map (m : gmap (option string) string) (st : state) : state :=
  mkState (heap st) (elements st) (files st) m (shape_bounds st)
          (shape_elt_map st) (bounds st) (draws st) (ticks st).

Definition set_shape_bounds (m : gmap string Bounds) (st : state) : state :=
  mkState (heap st) (elements st) (files st) (svg_xc_map st) m
          (shape_elt_map st) (bounds st) (draws st) (ticks st).

Definition set_shape_elt_map (m : gmap string nat) (st : state) : state :=
  mkState (heap st) (elements st) (files st) (svg_xc_map st) (shape_bounds st)
          m (bounds st) (draws st) (ticks st).

Definition set_bounds (b : option Bounds) (st : state) : state :=
  mkState (heap st) (elements st) (files st) (svg_xc_map st) (shape_bounds st)
          (shape_elt_map st) b (draws st) (ticks st).

Definition set_draws (n : nat) (st : state) : state :=
  mkState (heap st) (elements st) (files st) (svg_xc_map st) (shape_bounds st)
          (shape_elt_map st) (bounds st) n (ticks st).

Definition set_ticks (n : nat) (st : state) : state :=
  mkState (heap st) (elements st) (files st) (svg_xc_map st) (shape_bounds st)
          (shape_elt_map st) (bounds st) (draws st) n.

Definition initial_state : state :=
  mkState [] [] [] ∅ ∅ ∅ None 0 0.

(** A new element dictionary: its reference and the extended store. *)
Definition alloc (d : pydict) (st : state) : nat * state :=
  (List.length (heap st), set_heap (heap st ++ [d]) st).

(** [elt[k] = v] on the element at [ref]. *)
Definition setitem (ref : nat) (k : string) (v : pyval) (st : state) : state :=
  set_heap (alter (dict_set k v) ref (heap st)) st.

(** [elt[k]] on the element at [ref]. *)
Definition getitem (ref : nat) (k : string) (st : state) : result pyval :=
  subscript (dict_get k (heap st !!! ref)) k.

(** [elt["boundElements"].append(entry)] on the element at [ref];
    [None] has no [append]. *)
Definition append_boundElements (ref : nat) (entry : pyval) (st : state)
  : result state :=
  let* v := getitem ref "boundElements" st in
  match v with
  | VList l => Ok (setitem ref "boundElements" (VList (l ++ [entry])) st)
  | _ => Raise AttributeError
  end.

(** The value of a number stored in a dictionary, for arithmetic. *)
Definition as_num (v : pyval) : result num :=
  match v with
  | VNum n => Ok n
  | _ => Raise TypeError
  end.

(** The produced document: the fields of [Model]. *)
Record Model : Type := mkModel {
  m_type : string;
  m_version : Z;
  m_source : string;
  m_elements : list pydict;
  m_appState : pydict;
  m_files : pydict
}.

(** [{"type": kind, "id": id}], an entry of [boundElements]. *)
Definition bound_element (kind id : string) : pyval :=
  VDict [("type", VStr kind); ("id", VStr id)]%string.

(** Alphabet for Excalidraw identifiers *)
Definition IDCHARS : list ascii :=
  map (fun i => ascii_of_nat (65 + i)) (seq 0 26)
  ++ map (fun i => ascii_of_nat (97 + i)) (seq 0 26)
  ++ map (fun i => ascii_of_nat (48 + i)) (seq 0 10).

(** What the main loop has found in one group (the locals [g_rect],
    [g_line], [g_text], [g_image]). *)
Record found : Type := mkFound {
  g_rect : option Element;
  g_line : option Element;
  g_text : option Element;
  g_image : option Element
}.

Definition nothing_found : found := mkFound None None None None.

(** The inner loop over a shape container: the first [rect] or [image]
    child is kept and the loop is left. *)
Fixpoint find_shape (elts : list Element) (f : found) : found :=
  match elts with
  | [] => f
  | elt :: rest =>
      if String.eqb (tag elt) (svg_ns +:+ "rect") then
        mkFound (Some elt) (g_line f) (g_text f) (g_image f)
      else if String.eqb (tag elt) (svg_ns +:+ "image") then
        mkFound (g_rect f) (g_line f) (g_text f) (Some elt)
      else find_shape rest f
  end.

(** The loop over the children of a group ("Find node and text"). *)
Fixpoint find_node_and_text (subitems : list Element) (f : found)
  : result found :=
  match subitems with
  | [] => Ok f
  | subitem :: rest =>
      if String.eqb (tag subitem) g_tag
         && String.eqb (get_default subitem "class" EmptyString) "shape"
      then
        let f' := find_shape (children subitem) f in
        match g_rect f', g_image f' with
        | None, None => Raise (ValueError shape_without_rect_or_image)
        | _, _ => find_node_and_text rest f'
        end
      else if String.eqb (tag subitem) (svg_ns +:+ "text") then
        find_node_and_text rest
          (mkFound (g_rect f) (g_line f) (Some subitem) (g_image f))
      else if String.eqb (tag subitem) (svg_ns +:+ "path") then
        find_node_and_text rest
          (mkFound (g_rect f) (Some subitem) (g_text f) (g_image f))
      else find_node_and_text rest f
  end.

Definition VFloat (q : Q) : pyval := VNum (NFloat q).

(** ** A concrete runtime, for running the translation on examples *)

(** [float(s)] on plain decimal literals: an optional sign, digits, and an
    optional fraction; the exact value. *)
Definition all_digits (s : string) : bool :=
  (run_length is_digit s =? String.length s)%nat.

Definition unsigned_decimal (s : string) : option Q :=
  let n := run_length is_digit s in
  let int_part := substring 0 n s in
  let rest := drop_chars n s in
  match rest with
  | EmptyString =>
      if (n =? 0)%nat then None else Some (inject_Z (int_of_digits 0 int_part))
  | String c frac =>
      if Ascii.eqb c "."%char && all_digits frac
         && negb ((n + String.length frac =? 0)%nat)
      then Some (int_of_digits 0 (int_part +:+ frac)
                 # Z.to_pos (10 ^ Z.of_nat (String.length frac)))
      else None
  end.

Definition decimal_float (s : string) : option Q :=
  match s with
  | String "-"%char s' => option_map Qopp (unsigned_decimal s')
  | String "+"%char s' => unsigned_decimal s'
  | _ => unsigned_decimal s
  end.

(** SHA-1 (FIPS 180-4) of the bytes of a string, in lower-case hexadecimal. *)
Module SHA1.

Definition w32 (x : Z) : Z := x mod 2 ^ 32.

Definition rotl (n x : Z) : Z :=
  w32 (Z.lor (Z.shiftl x n) (Z.shiftr x (32 - n))).

Fixpoint bytes_of (s : string) : list Z :=
  match s with
  | EmptyString => []
  | String c s' => Z.of_nat (nat_of_ascii c) :: bytes_of s'
  end.

(** Big-endian bytes of [x], [n] of them. *)
Fixpoint be_bytes (n : nat) (x : Z) : list Z :=
  match n with
  | O => []
  | S n' => be_bytes n' (Z.shiftr x 8) ++ [x mod 256]
  end.

Definition pad (msg : list Z) : list Z :=
  let len := Z.of_nat (List.length msg) in
  let zeros := Z.to_nat ((55 - len) mod 64) in
  msg ++ [128] ++ repeat 0 zeros ++ be_bytes 8 (8 * len).

Fixpoint be_words (fuel : nat) (l : list Z) : list Z :=
  match fuel, l with
  | S fuel', a :: b :: c :: d :: l' =>
      (((a * 256 + b) * 256 + c) * 256 + d) :: be_words fuel' l'
  | _, _ => []
  end.

(** The message schedule, most recent word first. *)
Fixpoint schedule (n : nat) (rev_w : list Z) : list Z :=
  match n with
  | O => rev_w
  | S n' =>
      let w := rotl 1 (Z.lxor (Z.lxor (nth 2 rev_w 0) (nth 7 rev_w 0))
                              (Z.lxor (nth 13 rev_w 0) (nth 15 rev_w 0))) in
      schedule n' (w :: rev_w)
  end.

Definition round_fk (t : nat) (b c d : Z) : Z * Z :=
  if (t <? 20)%nat then
    (Z.lor (Z.land b c) (Z.land (w32 (Z.lnot b)) d), 1518500249)
  else if (t <? 40)%nat then (Z.lxor (Z.lxor b c) d, 1859775393)
  else if (t <? 60)%nat then
    (Z.lor (Z.lor (Z.land b c) (Z.land b d)) (Z.land c d), 2400959708)
  else (Z.lxor (Z.lxor b c) d, 3395469782).

Definition hash_state : Type := (Z * Z * Z * Z * Z)%type.

Fixpoint rounds (t : nat) (ws : list Z) (s : hash_state) : hash_state :=
  match ws with
  | [] => s
  | w :: ws' =>
      let '(a, b, c, d, e) := s in
      let '(f, k) := round_fk t b c d in
      let temp := w32 (rotl 5 a + f + e + k + w) in
      rounds (S t) ws' (temp, a, rotl 30 b, c, d)
  end.

Definition block (h : hash_state) (words : list Z) : hash_state :=
  let ws := rev (schedule 64 (rev words)) in
  let '(a, b, c, d, e) := rounds 0 ws h in
  let '(h0, h1, h2, h3, h4) := h in
  (w32 (h0 + a), w32 (h1 + b), w32 (h2 + c), w32 (h3 + d), w32 (h4 + e)).

Fixpoint blocks (fuel : nat) (h : hash_state) (words : list Z) : hash_state :=
  match fuel, words with
  | S fuel', _ :: _ => blocks fuel' (block h (take 16 words)) (drop 16 words)
  | _, _ => h
  end.

Definition initial : hash_state :=
  (1732584193, 4023233417, 2562383102, 271733878, 3285377520).

Definition hex_digit (x : Z) : ascii :=
  if x <? 10 then ascii_of_nat (Z.to_nat (48 + x))
  else ascii_of_nat (Z.to_nat (87 + x)).

Fixpoint hex (n : nat) (x : Z) : string :=
  match n with
  | O => EmptyString
  | S n' => hex n' (Z.shiftr x 4) +:+ String (hex_digit (x mod 16)) EmptyString
  end.

Definition hexdigest (s : string) : string :=
  let bytes := pad (bytes_of s) in
  let words := be_words (List.length bytes) bytes in
  let '(h0, h1, h2, h3, h4) := blocks (List.length words) initial words in
  hex 8 h0 +:+ hex 8 h1 +:+ hex 8 h2 +:+ hex 8 h3 +:+ hex 8 h4.

End SHA1.

Example sha1_abc :
  SHA1.hexdigest "abc" = "a9993e364706816aba3e25717850c26c9cd0d89d"%string.
Proof. vm_compute. reflexivity. Qed.

Example sha1_empty :
  SHA1.hexdigest EmptyString = "da39a3ee5e6b4b0d3255bfef95601890afd80709"%string.
Proof. vm_compute. reflexivity. Qed.

Example decimal_float_coord : decimal_float "610.414213" = Some (610414213 # 1000000).
Proof. reflexivity. Qed.

Example decimal_float_neg : decimal_float "-3." = Some (-3 # 1).
Proof. reflexivity. Qed.

Example decimal_float_bad : decimal_float "C" = None.
Proof. reflexivity. Qed.

(** ** Example documents *)

(** An element in the SVG namespace. *)
Definition svg_elem (name : string) (attrs : list (string * string))
    (txt : option string) (sub : list Element) : Element :=
  Elem (svg_ns +:+ name) attrs txt sub.

Definition label_elem (txt : string) : Element :=
  svg_elem "text"
    [("x", "352.000000"); ("y", "158.500000");
     ("style", "text-anchor:middle;font-size:16px")]%string
    (Some txt) [].

Definition rect_elem (x y w h : string) : Element :=
  svg_elem "rect"
    [("x", x); ("y", y); ("width", w); ("height", h)]%string None [].

Definition image_elem (href x y w h : string) : Element :=
  svg_elem "image"
    [("href", href); ("x", x); ("y", y); ("width", w); ("height", h)]%string
    None [].

Definition path_elem (d : option string) : Element :=
  svg_elem "path"
    match d with
    | Some p => [("d", p)]%string
    | None => []
    end None [].

(** A unit group: a shape container with a rectangle, and a label. *)
Definition unit_rect (id x y w h txt : string) : Element :=
  svg_elem "g" [("id", id)]%string None
    [svg_elem "g" [("class", "shape")]%string None [rect_elem x y w h];
     label_elem txt].

(** A unit group: a shape container with an image, and a label. *)
Definition unit_image (id href x y w h txt : string) : Element :=
  svg_elem "g" [("id", id)]%string None
    [svg_elem "g" [("class", "shape")]%string None [image_elem href x y w h];
     label_elem txt].

(** An edge group: a path, with or without a [d] attribute. *)
Definition edge (id : string) (d : option string) : Element :=
  svg_elem "g" [("id", id)]%string None [path_elem d].

Definition document (items : list Element) : Element :=
  Elem "root" [] None [svg_elem "svg" [] None items].

Definition Unit_A : Element :=
  unit_rect "Unit_A" "12.000000" "120.000000" "132.000000" "66.000000" "A".

Definition Unit_B : Element :=
  unit_rect "Unit_B" "286.000000" "120.000000" "132.000000" "66.000000" "B".

Definition Unit_I : Element :=
  unit_image "Unit_I" "data:image/svg+xml;base64,PD94" "286.000000"
             "120.000000" "128.000000" "128.000000" "I".

(** The runtime of the examples: identifiers are drawn round the alphabet
    and the clock stands still. *)
Definition example_index (n : nat) : nat := n.
Definition example_time (n : nat) : Z := 1700000000.

Section Translation.

(** The Python runtime the translation calls into. *)

(** [float(s)] for a string: the value, or [None] where Python raises
    [ValueError]. *)
Variable float : string -> option Q.

(** [hashlib.sha1(data.encode("utf-8")).hexdigest()] *)
Variable sha1_hexdigest : string -> string.

(** The index [random.choices] picks at its [n]-th draw. *)
Variable random_index : nat -> nat.

(** [int(time.time())] at the [n]-th reading of the clock. *)
Variable time : nat -> Z.

(** [random.choices(cls.IDCHARS, k=21)], joined, when [n] indices have
    been drawn before. *)
Definition random_id (n : nat) : string :=
  string_of_list_ascii
    (map (fun i => nth (random_index (n + i) mod 62) IDCHARS "A"%char)
         (seq 0 21)).

(** Generate random identifier in the style used by Excalidraw *)
Definition _element_id (st : state) : string * state :=
  (random_id (draws st), set_draws (draws st + 21) st).

(** Generate identifier for Excalidraw image *)
Definition _image_id (data : string) : string :=
  sha1_hexdigest data.

Definition py_float (s : string) : result Q :=
  match float s with
  | Some q => Ok q
  | None => Raise (ValueError (could_not_convert_string_to_float s))
  end.

(** [int(float(e.get(c)))]; [float(None)] is a [TypeError]. *)
Definition int_float_get (e : Element) (c : string) : result Z :=
  match get e c with
  | None => Raise TypeError
  | Some s => let* q := py_float s in Ok (int_of_float q)
  end.

(** The [Bounds] of a shape: [int(float(e.get(c)))] for [c] in
    ["x"], ["y"], ["width"], ["height"], in that order. *)
Definition shape_Bounds (e : Element) : result Bounds :=
  let* x := int_float_get e "x" in
  let* y := int_float_get e "y" in
  let* w := int_float_get e "width" in
  let* h := int_float_get e "height" in
  Ok (mkBounds (NInt x) (NInt y) (NInt w) (NInt h)).

Definition make_rect_elt (rect_id : string) (b : Bounds) (now : Z) : pydict :=
  [ ("id", VStr rect_id);
    ("type", VStr "rectangle");
    ("x", VNum (b_x b));
    ("y", VNum (b_y b));
    ("width", VNum (b_width b));
    ("height", VNum (b_height b));
    ("angle", VInt 0);
    ("strokeColor", VStr "#000000");
    ("backgroundColor", VStr "transparent");
    ("fillStyle", VStr "solid");
    ("strokeWidth", VInt 2);
    ("strokeStyle", VStr "solid");
    ("roughness", VInt 1);
    ("opacity", VInt 100);
    ("roundness", VDict [("type", VInt 3)]);
    ("isDeleted", VBool false);
    ("updated", VInt now);
    ("locked", VBool false);
    ("points", VList []);
    ("originalText", VNone);
    ("autoResize", VBool true);
    ("lineHeight", VFloat (5 # 4));
    ("groupIds", VList []);
    ("frameId", VNone);
    ("link", VNone);
    ("boundElements", VList []) ]%string.

Definition make_image_file_elt (image_file_id : string) (image_data : string)
    (now : Z) : pydict :=
  [ ("mimeType", VStr "image/svg+xml");
    ("id", VStr image_file_id);
    ("dataURL", VStr image_data);
    ("created", VInt now);
    ("lastRetrieved", VInt now) ]%string.

Definition make_image_elt (image_id : string) (b : Bounds) (now : Z)
    (image_file_id : string) : pydict :=
  [ ("id", VStr image_id);
    ("type", VStr "image");
    ("x", VNum (b_x b));
    ("y", VNum (b_y b));
    ("width", VNum (b_width b));
    ("height", VNum (b_height b));
    ("angle", VInt 0);
    ("strokeColor", VStr "#000000");
    ("backgroundColor", VStr "transparent");
    ("fillStyle", VStr "solid");
    ("strokeWidth", VInt 2);
    ("strokeStyle", VStr "solid");
    ("roughness", VInt 1);
    ("opacity", VInt 100);
    ("roundness", VNone);
    ("isDeleted", VBool false);
    ("updated", VInt now);
    ("locked", VBool false);
    ("points", VList []);
    ("originalText", VNone);
    ("autoResize", VBool true);
    ("lineHeight", VFloat (5 # 4));
    ("groupIds", VList []);
    ("frameId", VNone);
    ("link", VNone);
    ("boundElements", VList []);
    ("scale", VList [VInt 1; VInt 1]);
    ("crop", VNone);
    ("fileId", VStr image_file_id) ]%string.

(** The font size of a label: the digits of the first
    [font-size:\s*(\d+)px] in its style, else 12. *)
Definition font_size_of (text_style : string) : Z :=
  match re_search font_size_re text_style with
  | Some (d :: _) => int_of_digits 0 d
  | _ => 12
  end.

(** calculate SVG margin from text to rectangle *)
Definition margin : num := NInt 4.

Definition make_text_elt (text_id : string) (b : Bounds) (font_size : Z)
    (text_value : string) (now : Z) : pydict :=
  [ ("id", VStr text_id);
    ("type", VStr "text");
    ("x", VNum (b_x b));
    ("y", VNum (b_y b + b_height b / NInt 2 - margin - NInt font_size / NInt 2)%num);
    ("width", VNum (b_width b + NInt font_size)%num);
    ("height", VNum (NInt font_size * NFloat (3 # 2))%num);
    ("angle", VInt 0);
    ("strokeColor", VStr "#000000");
    ("backgroundColor", VStr "transparent");
    ("fillStyle", VStr "solid");
    ("strokeWidth", VInt 2);
    ("strokeStyle", VStr "solid");
    ("roughness", VInt 1);
    ("opacity", VInt 100);
    ("groupIds", VList []);
    ("frameId", VNone);
    ("roundness", VNone);
    ("isDeleted", VBool false);
    ("boundElements", VNone);
    ("updated", VInt now);
    ("link", VNone);
    ("locked", VBool false);
    ("text", VStr text_value);
    ("fontSize", VInt font_size);
    ("fontFamily", VInt 6);
    ("textAlign", VStr "center");
    ("verticalAlign", VStr "middle");
    ("containerId", VNone);
    ("originalText", VStr text_value);
    ("autoResize", VBool true);
    ("lineHeight", VInt 1) ]%string.

(** A point [[x, y]] of a point list. *)
Definition point (x y : num) : pyval := VList [VNum x; VNum y].

Definition binding (shape_id : string) : pyval :=
  VDict [ ("elementId", VStr shape_id);
          ("focus", VInt 0);
          ("gap", VInt 1);
          ("fixedPoint", VNone) ]%string.

Definition make_line_elt (line_id : string) (start_bounds end_bounds : Bounds)
    (point_list : list pyval) (start_shape_id end_shape_id : string) (now : Z)
  : pydict :=
  [ ("id", VStr line_id);
    ("type", VStr "arrow");
    ("x", VNum (b_x start_bounds));
    ("y", VNum (b_y start_bounds));
    ("width", VNum (num_abs (b_x end_bounds - b_x start_bounds)%num));
    ("height", VNum (num_abs (b_y end_bounds - b_y start_bounds)%num));
    ("angle", VInt 0);
    ("strokeColor", VStr "#1e1e1e");
    ("backgroundColor", VStr "transparent");
    ("fillStyle", VStr "solid");
    ("strokeWidth", VInt 2);
    ("strokeStyle", VStr "solid");
    ("roughness", VInt 1);
    ("opacity", VInt 100);
    ("groupIds", VList []);
    ("frameId", VNone);
    ("roundness", VDict [("type", VInt 2)]);
    ("isDeleted", VBool false);
    ("boundElements", VNone);
    ("updated", VInt now);
    ("link", VNone);
    ("locked", VBool false);
    ("points", VList point_list);
    ("lastCommittedPoint", VNone);
    ("startBinding", binding start_shape_id);
    ("endBinding", binding end_shape_id);
    ("startArrowhead", VNone);
    ("endArrowhead", VStr "arrow");
    ("elbowed", VBool false) ]%string.

(** [coord_items[i]]; the source reads an index only after it has checked
    that there are ten items or more. *)
Definition item_at (coord_items : list string) (i : nat) : string :=
  nth i coord_items EmptyString.

(** [match.group(n)] *)
Definition group (m : list string) (n : nat) : string :=
  nth (n - 1) m EmptyString.

(** The rectangle of a group: its element, its bounds, and the two maps. *)
Definition rect_phase (xc_id : string) (now : Z) (f : found) (st : state)
  : result (option nat * state) :=
  match g_rect f with
  | None => Ok (None, st)
  | Some g =>
      let rect_id := xc_id in
      let* b := shape_Bounds g in
      let st := set_bounds (Some b) st in
      let '(rect_elt, st) := alloc (make_rect_elt rect_id b now) st in
      let st := set_shape_bounds (<[rect_id := b]> (shape_bounds st)) st in
      let st := set_shape_elt_map (<[rect_id := rect_elt]> (shape_elt_map st)) st in
      Ok (Some rect_elt, st)
  end.

(** The image of a group: [(image_elt, image_file_id, image_file_elt)]. *)
Definition image_phase (xc_id : string) (now : Z) (f : found) (st : state)
  : result (option (nat * string * pydict) * state) :=
  match g_image f with
  | None => Ok (None, st)
  | Some g =>
      let image_id := xc_id in
      let* b := shape_Bounds g in
      let st := set_bounds (Some b) st in
      let* image_data :=
        match get g "href" with
        | Some data => Ok data
        | None => Raise AttributeError
        end in
      let image_file_id := _image_id image_data in
      let image_file_elt := make_image_file_elt image_file_id image_data now in
      let '(image_elt, st) :=
        alloc (make_image_elt image_id b now image_file_id) st in
      let st := set_shape_bounds (<[image_id := b]> (shape_bounds st)) st in
      let st := set_shape_elt_map (<[image_id := image_elt]> (shape_elt_map st)) st in
      Ok (Some (image_elt, image_file_id, image_file_elt), st)
  end.

(** The label of a group: [(text_elt, text_id, font_size)]. *)
Definition text_phase (now : Z) (f : found) (st : state)
  : result (option (nat * string * Z) * state) :=
  match g_text f with
  | None => Ok (None, st)
  | Some g =>
      let '(text_id, st) := _element_id st in
      let* _ := int_float_get g "x" in
      let* _ := int_float_get g "y" in
      let* text_value :=
        match text g with
        | Some t => Ok (strip t)
        | None => Raise AttributeError
        end in
      let text_style := get_default g "style" EmptyString in
      let font_size := font_size_of text_style in
      let* b :=
        match bounds st with
        | Some b => Ok b
        | None => Raise (UnboundLocalError "bounds")
        end in
      let '(text_elt, st) :=
        alloc (make_text_elt text_id b font_size text_value now) st in
      Ok (Some (text_elt, text_id, font_size), st)
  end.

(** in absence of a path, just connect with straight line *)
Definition straight_line (st : state) (start_shape_id end_shape_id : string)
  : result (Bounds * Bounds * list pyval) :=
  let* start_bounds :=
    subscript (shape_bounds st !! start_shape_id) start_shape_id in
  let* end_bounds :=
    subscript (shape_bounds st !! end_shape_id) end_shape_id in
  let dx := (b_x end_bounds - b_x start_bounds)%num in
  let startx := if num_gtb dx (NInt 0) then b_width start_bounds else NInt 0 in
  let dy := (b_y end_bounds - b_y start_bounds)%num in
  let starty := (b_height start_bounds / NInt 2)%num in
  Ok (start_bounds, end_bounds, [point startx starty; point dx dy]).

(** One pass of the loop that puts the path in the point list. *)
Definition path_point (coord_items : list string) (start_bounds : Bounds)
    (xi yi : nat) : result pyval :=
  let* x := py_float (item_at coord_items xi) in
  let* y := py_float (item_at coord_items yi) in
  Ok (point (NFloat x - b_x start_bounds)%num (NFloat y - b_y start_bounds)%num).

(** The geometry of a connector from the [d] attribute of its path. *)
Definition cubic_path (path_coords : string)
  : result (Bounds * Bounds * list pyval) :=
  let coord_items := split_coords path_coords in
  let n := List.length coord_items in
  if (n <? 10)%nat then Raise (ValueError (Wrong_number_of_items n))
  else if negb (String.eqb (item_at coord_items 0) "M") then
    Raise (ValueError Expected_M_as_first_item)
  else if negb (String.eqb (item_at coord_items 3) "C") then
    Raise (ValueError Expected_C_as_third_item)
  else
    let* x1 := py_float (item_at coord_items 1) in
    let* y1 := py_float (item_at coord_items 2) in
    let start_bounds := mkBounds (NFloat x1) (NFloat y1) (NInt 0) (NInt 0) in
    let* x2 := py_float (item_at coord_items 8) in
    let* y2 := py_float (item_at coord_items 9) in
    let end_bounds := mkBounds (NFloat x2) (NFloat y2) (NInt 0) (NInt 0) in
    let* p1 := path_point coord_items start_bounds 4 5 in
    let* p2 := path_point coord_items start_bounds (n - 2) (n - 1) in
    Ok (start_bounds, end_bounds, [point (NInt 0) (NInt 0); p1; p2]).

(** The connector of a group. *)
Definition line_phase (item_id : option string) (now : Z) (f : found)
    (st : state) : result (option nat * state) :=
  match g_line f with
  | None => Ok (None, st)
  | Some g =>
      let '(line_id, st) := _element_id st in
      let* item_id :=
        match item_id with
        | Some s => Ok s
        | None => Raise TypeError
        end in
      let* m :=
        match re_search endpoints_re item_id with
        | Some m => Ok m
        | None => Raise (ValueError (could_not_find_line_endpoints item_id))
        end in
      let unit := group m 1 in
      let* start_shape_id := subscript (svg_xc_map st !! Some unit) unit in
      let unit := group m 2 in
      let* end_shape_id := subscript (svg_xc_map st !! Some unit) unit in
      let* (start_bounds, end_bounds, point_list) :=
        match get g "d" with
        | None => straight_line st start_shape_id end_shape_id
        | Some path_coords => cubic_path path_coords
        end in
      let '(line_elt, st) :=
        alloc (make_line_elt line_id start_bounds end_bounds point_list
                             start_shape_id end_shape_id now) st in
      let* r := subscript (shape_elt_map st !! start_shape_id) start_shape_id in
      let* st := append_boundElements r (bound_element "arrow" line_id) st in
      let* r := subscript (shape_elt_map st !! end_shape_id) end_shape_id in
      let* st := append_boundElements r (bound_element "arrow" line_id) st in
      Ok (Some line_elt, st)
  end.

(** A label is bound to its rectangle, or grouped with its image and moved
    below it. *)
Definition bind_phase (rect_id : string) (rect_elt : option nat)
    (image_elt : option (nat * string * pydict))
    (text_elt : option (nat * string * Z)) (st : state) : result state :=
  match text_elt, rect_elt, image_elt with
  | Some (text_elt, text_id, _), Some rect_elt, _ =>
      let* st := append_boundElements rect_elt (bound_element "text" text_id) st in
      Ok (setitem text_elt "containerId" (VStr rect_id) st)
  | Some (text_elt, _, font_size), None, Some (image_elt, _, _) =>
      let '(group_id, st) := _element_id st in
      let st := setitem image_elt "groupIds" (VList [VStr group_id]) st in
      let st := setitem text_elt "groupIds" (VList [VStr group_id]) st in
      let* y := bind (getitem text_elt "y" st) as_num in
      let* h := bind (getitem image_elt "height" st) as_num in
      Ok (setitem text_elt "y"
            (VNum (y + (h / NInt 2 + NInt font_size / NInt 2))%num) st)
  | _, _, _ => Ok st
  end.

(** [model.elements.append(elt)] *)
Definition append_element (elt : nat) (st : state) : state :=
  set_elements (elements st ++ [elt]) st.

(** The appends that end an iteration. *)
Definition append_phase (rect_elt : option nat)
    (image_elt : option (nat * string * pydict))
    (text_elt : option (nat * string * Z)) (line_elt : option nat)
    (st : state) : state :=
  let st := match rect_elt with
            | Some r => append_element r st
            | None => st
            end in
  let st := match image_elt with
            | Some (i, image_file_id, image_file_elt) =>
                set_files (dict_set image_file_id (VDict image_file_elt) (files st))
                          (append_element i st)
            | None => st
            end in
  let st := match text_elt with
            | Some (t, _, _) => append_element t st
            | None => st
            end in
  match line_elt with
  | Some l => append_element l st
  | None => st
  end.

(** The body of the main loop of [from_svg], for one child of the canvas. *)
Definition process_item (st : state) (item : Element) : result state :=
  if String.eqb (tag item) g_tag then
    let item_id := get item "id" in
    let '(xc_id, st) := _element_id st in
    let st := set_svg_xc_map (<[item_id := xc_id]> (svg_xc_map st)) st in
    let* f := find_node_and_text (children item) nothing_found in
    let now := time (ticks st) in
    let st := set_ticks (S (ticks st)) st in
    let* (rect_elt, st) := rect_phase xc_id now f st in
    let* (image_elt, st) := image_phase xc_id now f st in
    let* (text_elt, st) := text_phase now f st in
    let* (line_elt, st) := line_phase item_id now f st in
    let* st := bind_phase xc_id rect_elt image_elt text_elt st in
    Ok (append_phase rect_elt image_elt text_elt line_elt st)
  else Ok st.

(** The main loop. *)
Fixpoint main_loop (items : list Element) (st : state) : result state :=
  match items with
  | [] => Ok st
  | item :: rest => let* st := process_item st item in main_loop rest st
  end.

Definition appState : pydict :=
  [ ("gridSize", VInt 20);
    ("gridStep", VInt 5);
    ("gridModeEnabled", VBool false);
    ("viewBackgroundColor", VStr "#ffffff") ]%string.

(** The model a finished loop leaves: every reference of [model.elements]
    read in the store. *)
Definition model_of (st : state) : Model :=
  mkModel "excalidraw" 2 "idaes"
          (map (fun r => heap st !!! r) (elements st)) appState (files st).

Definition from_svg (root : Element) : result Model :=
  match find (svg_ns +:+ "svg") (children root) with
  | None => Raise (ValueError Cannot_find_svg_tag)
  | Some svg =>
      let* st := main_loop (children svg) initial_state in
      Ok (model_of st)
  end.

(** ** Vocabulary of the statements *)

(** An entry [{"type": "arrow", "id": ...}] of a [boundElements] list. *)
Definition is_arrow_entry (v : pyval) : Prop :=
  exists line_id : string, v = bound_element "arrow" line_id.

(** The element [d] once the connectors [arrows] have been bound to it:
    the only change the loop makes to an element of an earlier group. *)
Definition add_arrows (arrows : list pyval) (d : pydict) : pydict :=
  match dict_get "boundElements" d with
  | Some (VList l) => dict_set "boundElements" (VList (l ++ arrows)) d
  | _ => d
  end.

Definition bound_later (d d' : pydict) : Prop :=
  exists arrows, Forall is_arrow_entry arrows /\ d' = add_arrows arrows d.

(** The elements below [n] of the store [h] are still in [h'], with
    connectors bound to them at most. *)
Definition heap_grows (n : nat) (h h' : list pydict) : Prop :=
  (List.length h <= List.length h')%nat /\
  forall r d, (r < n)%nat -> h !! r = Some d ->
              exists d', h' !! r = Some d' /\ bound_later d d'.

(** The main loop of [from_svg root] comes to [item] in state [st]. *)
Definition visits (root : Element) (st : state) (item : Element) : Prop :=
  exists svg pre post,
    find (svg_ns +:+ "svg") (children root) = Some svg /\
    children svg = pre ++ item :: post /\
    main_loop pre initial_state = Ok st.

(** Every element made so far has been appended to [model.elements], in
    the order of the store, and no blob is stored twice. *)
Definition consistent (st : state) : Prop :=
  elements st = seq 0 (List.length (heap st)) /\
  NoDup (dict_keys (files st)).

(** [st'] is a state the loop reaches from [st]. *)
Definition later (st st' : state) : Prop :=
  heap_grows (List.length (heap st)) (heap st) (heap st') /\
  (forall k, k ∈ dict_keys (files st) -> k ∈ dict_keys (files st')) /\
  (forall k, is_Some (svg_xc_map st !! k) -> is_Some (svg_xc_map st' !! k)).

(** The number of elements a group with the contents [f] adds. *)
Definition present {A : Type} (o : option A) : nat :=
  match o with
  | Some _ => 1
  | None => 0
  end.

Definition n_elements (f : found) : nat :=
  present (g_rect f) + present (g_image f) + present (g_text f)
  + present (g_line f).

(** The contents of a group, as the main loop finds them. *)
Definition contents (item : Element) : result found :=
  find_node_and_text (children item) nothing_found.



(** The errors the three checks on the items of a path raise
    ([PathFormatError] in the specification). *)
Definition PathFormatError (e : exn) : Prop :=
  match e with
  | ValueError (Wrong_number_of_items _)
  | ValueError Expected_M_as_first_item
  | ValueError Expected_C_as_third_item => True
  | _ => False
  end.

(** The error of a name that is not in [svg_xc_map]
    ([UnresolvedReferenceError] in the specification). *)
Definition UnresolvedReferenceError (name : string) : exn := KeyError name.

(** The path data has ten items or more, the first is [M] and the fourth
    is [C]. *)
Definition path_format_ok (path_coords : string) : bool :=
  let coord_items := split_coords path_coords in
  (10 <=? List.length coord_items)%nat
  && String.eqb (item_at coord_items 0) "M"
  && String.eqb (item_at coord_items 3) "C".

(** [v] is the entry [{"type": kind, "id": id}]. *)
Definition is_bound_element (kind id : string) (v : pyval) : bool :=
  match v with
  | VDict [(k1, VStr a); (k2, VStr b)] =>
      String.eqb k1 "type" && String.eqb a kind
      && String.eqb k2 "id" && String.eqb b id
  | _ => false
  end.

(** The number of entries [{"type": kind, "id": id}] of a [boundElements]
    value. *)
Definition count_bound (kind id : string) (v : option pyval) : nat :=
  match v with
  | Some (VList l) => List.length (List.filter (is_bound_element kind id) l)
  | _ => O
  end.

(** The canvas of a document: the [svg] child of its root. *)
Definition canvas (root : Element) : option Element :=
  find (svg_ns +:+ "svg") (children root).

(** [item.tag == g_tag] *)
Definition is_group (item : Element) : bool := String.eqb (tag item) g_tag.

(** [subitem.tag == g_tag and subitem.get("class", "") == "shape"] *)
Definition is_shape_container (subitem : Element) : bool :=
  String.eqb (tag subitem) g_tag
  && String.eqb (get_default subitem "class" EmptyString) "shape".

(** [elt.tag == svg_ns + name] *)
Definition has_tag (name : string) (elt : Element) : bool :=
  String.eqb (tag elt) (svg_ns +:+ name).

(** The fields of an element that no later statement of the loop writes:
    all but [boundElements], [containerId], [groupIds] and [y]. *)
Definition stable_key (k : string) : Prop :=
  k <> "boundElements"%string /\ k <> "containerId"%string /\
  k <> "groupIds"%string /\ k <> "y"%string.

(** The fields of the element [d0] that stay as they are made: the stable
    ones, and [y] unless the element is a label. *)
Definition kept (d0 : pydict) (k : string) : Prop :=
  stable_key k \/
  (k = "y"%string /\ dict_get "type" d0 <> Some (VStr "text")).

(** [d] has the kept fields of [d0]. *)
Definition agrees (d0 d : pydict) : Prop :=
  forall k, kept d0 k -> dict_get k d = dict_get k d0.

(** The bounds a label is laid out in: those of the image of its group,
    else of its rectangle, else what an earlier group left in [bounds]. *)
Definition label_bounds (st : state) (f : found) : option Bounds :=
  match g_image f, g_rect f with
  | Some g, _ | None, Some g =>
      match shape_Bounds g with
      | Ok b => Some b
      | Raise _ => None
      end
  | None, None => bounds st
  end.

(** The elements a group with the contents [f] makes, as they are when
    they are made, in the order they are made. *)
Definition created (st : state) (f : found) (news : list pydict) : Prop :=
  let xc_id := (_element_id st).1 in
  let now := time (ticks st) in
  exists lr li lt ll,
    news = lr ++ li ++ lt ++ ll /\
    match g_rect f with
    | None => lr = []
    | Some g => exists b, shape_Bounds g = Ok b /\ lr = [make_rect_elt xc_id b now]
    end /\
    match g_image f with
    | None => li = []
    | Some g =>
        exists b data,
          shape_Bounds g = Ok b /\ get g "href" = Some data /\
          li = [make_image_elt xc_id b now (_image_id data)]
    end /\
    match g_text f with
    | None => lt = []
    | Some g =>
        exists text_id b t,
          text g = Some t /\ label_bounds st f = Some b /\
          lt = [make_text_elt text_id b
                  (font_size_of (get_default g "style" EmptyString))
                  (strip t) now]
    end /\
    match g_line f with
    | None => ll = []
    | Some g =>
        exists line_id sb eb pts sid tid,
          ll = [make_line_elt line_id sb eb pts sid tid now]
    end.

(** The [type] fields of the elements of a group, in the order the group
    adds them to the model. *)
Definition element_types (f : found) : list string :=
  (match g_rect f with Some _ => ["rectangle"%string] | None => [] end)
  ++ (match g_image f with Some _ => ["image"%string] | None => [] end)
  ++ (match g_text f with Some _ => ["text"%string] | None => [] end)
  ++ (match g_line f with Some _ => ["arrow"%string] | None => [] end).

(** [float(e.get(c))], when the attribute is there and is a number. *)
Definition float_attr (e : Element) (c : string) : option Q :=
  match get e c with
  | Some s => float s
  | None => None
  end.




(** The [type] fields of the elements a child of the canvas adds. *)
Definition group_types (item : Element) : list string :=
  if is_group item then
    match contents item with
    | Ok f => element_types f
    | Raise _ => []
    end
  else [].



(** ** Dictionaries *)

Lemma dict_get_set_eq {A : Type} (k : string) (v : A) (d : list (string * A)) :
  dict_get k (dict_set k v d) = Some v.
Proof.
  induction d as [|[k' v'] d IH]; simpl.
  - by rewrite String.eqb_refl.
  - destruct (String.eqb k k') eqn:E; simpl; rewrite E; [done | apply IH].
Qed.

Lemma dict_get_set_ne {A : Type} (k k' : string) (v : A) (d : list (string * A)) :
  k ≠ k' -> dict_get k' (dict_set k v d) = dict_get k' d.
Proof.
  intros Hne. induction d as [|[k0 v0] d IH]; simpl.
  - destruct (String.eqb k' k) eqn:E; [|done].
    apply String.eqb_eq in E. congruence.
  - destruct (String.eqb k k0) eqn:E; simpl.
    + apply String.eqb_eq in E. subst k0.
      destruct (String.eqb k' k) eqn:E'; [|done].
      apply String.eqb_eq in E'. congruence.
    + by rewrite IH.
Qed.

Lemma dict_set_set {A : Type} (k : string) (v w : A) (d : list (string * A)) :
  dict_set k w (dict_set k v d) = dict_set k w d.
Proof.
  induction d as [|[k' v'] d IH]; simpl.
  - by rewrite String.eqb_refl.
  - destruct (String.eqb k k') eqn:E; simpl; rewrite E; [done | by rewrite IH].
Qed.

Lemma dict_set_id {A : Type} (k : string) (v : A) (d : list (string * A)) :
  dict_get k d = Some v -> dict_set k v d = d.
Proof.
  induction d as [|[k' v'] d IH]; simpl; [done|].
  destruct (String.eqb k k') eqn:E.
  - intros [= ->]. done.
  - intros H. by rewrite IH.
Qed.

Lemma dict_get_keys {A : Type} (k : string) (d : list (string * A)) :
  k ∈ dict_keys d <-> is_Some (dict_get k d).
Proof.
  induction d as [|[k' v'] d IH]; simpl.
  - split; [intros H; inversion H | intros [? [=]]].
  - rewrite elem_of_cons, IH. destruct (String.eqb k k') eqn:E.
    + apply String.eqb_eq in E. split; [eauto | by left].
    + apply String.eqb_neq in E. split; [intros [?|?]; done | by right].
Qed.

Lemma dict_keys_set {A : Type} (k : string) (v : A) (d : list (string * A)) :
  dict_keys (dict_set k v d)
  = if decide (k ∈ dict_keys d) then dict_keys d else dict_keys d ++ [k].
Proof.
  induction d as [|[k' v'] d IH].
  - destruct (decide (k ∈ dict_keys (@nil (string * A)))) as [Hin|Hin];
      [inversion Hin | done].
  - change (dict_keys ((k', v') :: d)) with (k' :: dict_keys d).
    change (dict_set k v ((k', v') :: d))
      with (if String.eqb k k' then (k', v) :: d else (k', v') :: dict_set k v d).
    destruct (String.eqb k k') eqn:E.
    + apply String.eqb_eq in E. subst k'.
      destruct (decide (k ∈ k :: dict_keys d)) as [Hin|Hin]; [done|].
      destruct Hin. by left.
    + apply String.eqb_neq in E.
      change (dict_keys ((k', v') :: dict_set k v d))
        with (k' :: dict_keys (dict_set k v d)).
      rewrite IH.
      destruct (decide (k ∈ dict_keys d)) as [Hin|Hin];
        destruct (decide (k ∈ k' :: dict_keys d)) as [Hin'|Hin']; try done.
      * destruct Hin'. by right.
      * apply elem_of_cons in Hin' as [?|?]; done.
Qed.

Lemma dict_set_NoDup {A : Type} (k : string) (v : A) (d : list (string * A)) :
  NoDup (dict_keys d) -> NoDup (dict_keys (dict_set k v d)).
Proof.
  intros Hnd. rewrite dict_keys_set. case_decide; [done|].
  apply NoDup_app. split_and!; [done | | apply NoDup_singleton].
  intros x Hx ->%list_elem_of_singleton. done.
Qed.

(** ** Results *)

Lemma bind_Ok {A B : Type} (m : result A) (k : A -> result B) (b : B) :
  bind m k = Ok b -> exists a, m = Ok a /\ k a = Ok b.
Proof. destruct m; simpl; [eauto | done]. Qed.

Lemma bind_Raise {A B : Type} (m : result A) (k : A -> result B) (e : exn) :
  bind m k = Raise e -> m = Raise e \/ exists a, m = Ok a /\ k a = Raise e.
Proof. destruct m; simpl; [eauto | intros [= ->]; by left]. Qed.

Lemma Ok_inj {A : Type} (a b : A) : Ok a = Ok b -> a = b.
Proof. congruence. Qed.

Lemma subscript_Ok {A : Type} (o : option A) (key : string) (a : A) :
  subscript o key = Ok a -> o = Some a.
Proof. destruct o; simpl; congruence. Qed.

(** ** Elements of earlier groups *)

Lemma add_arrows_nil (d : pydict) : add_arrows [] d = d.
Proof.
  unfold add_arrows.
  destruct (dict_get "boundElements" d) as [[]|] eqn:E; try done.
  rewrite app_nil_r. by apply dict_set_id.
Qed.

Lemma add_arrows_app (a1 a2 : list pyval) (d : pydict) :
  add_arrows a2 (add_arrows a1 d) = add_arrows (a1 ++ a2) d.
Proof.
  unfold add_arrows.
  destruct (dict_get "boundElements" d) as [[]|] eqn:E; rewrite ?E; try done.
  by rewrite dict_get_set_eq, dict_set_set, app_assoc.
Qed.

Lemma add_arrows_get (arrows : list pyval) (d : pydict) (k : string) :
  k <> "boundElements"%string ->
  dict_get k (add_arrows arrows d) = dict_get k d.
Proof.
  intros Hk. unfold add_arrows.
  destruct (dict_get "boundElements" d) as [[]|]; try done.
  by apply dict_get_set_ne.
Qed.

Lemma add_arrows_boundElements (arrows : list pyval) (d : pydict) :
  dict_get "boundElements" (add_arrows arrows d)
  = match dict_get "boundElements" d with
    | Some (VList l) => Some (VList (l ++ arrows))
    | o => o
    end.
Proof.
  unfold add_arrows.
  destruct (dict_get "boundElements" d) as [[]|] eqn:E; rewrite ?E; try done.
  apply dict_get_set_eq.
Qed.

Lemma dict_set_add_arrows (arrows : list pyval) (v : pyval) (d : pydict) :
  dict_set "boundElements" v (add_arrows arrows d)
  = dict_set "boundElements" v d.
Proof.
  unfold add_arrows.
  destruct (dict_get "boundElements" d) as [[]|]; try done.
  apply dict_set_set.
Qed.

Lemma bound_later_refl (d : pydict) : bound_later d d.
Proof. exists []. split; [constructor | by rewrite add_arrows_nil]. Qed.

Lemma bound_later_trans (d1 d2 d3 : pydict) :
  bound_later d1 d2 -> bound_later d2 d3 -> bound_later d1 d3.
Proof.
  intros (a1 & H1 & ->) (a2 & H2 & ->). exists (a1 ++ a2).
  split; [by apply Forall_app | by rewrite add_arrows_app].
Qed.

Lemma bound_later_get (d d' : pydict) (k : string) :
  bound_later d d' -> k <> "boundElements"%string ->
  dict_get k d' = dict_get k d.
Proof. intros (a & _ & ->) Hk. by apply add_arrows_get. Qed.

Lemma heap_grows_refl (n : nat) (h : list pydict) : heap_grows n h h.
Proof. split; [done|]. intros r d _ H. exists d. split; [done | apply bound_later_refl]. Qed.

Lemma heap_grows_trans (n : nat) (h1 h2 h3 : list pydict) :
  heap_grows n h1 h2 -> heap_grows n h2 h3 -> heap_grows n h1 h3.
Proof.
  intros [L1 H1] [L2 H2]. split; [lia|].
  intros r d Hr Hd. destruct (H1 r d Hr Hd) as (d2 & Hd2 & B1).
  destruct (H2 r d2 Hr Hd2) as (d3 & Hd3 & B2).
  exists d3. split; [done | by eapply bound_later_trans].
Qed.

Lemma heap_grows_le (n m : nat) (h h' : list pydict) :
  (m <= n)%nat -> heap_grows n h h' -> heap_grows m h h'.
Proof. intros Hmn [L H]. split; [done|]. intros r d Hr. apply H. lia. Qed.

Lemma heap_grows_alloc (n : nat) (h : list pydict) (d : pydict) :
  heap_grows n h (h ++ [d]).
Proof.
  split; [rewrite length_app; simpl; lia|].
  intros r d0 _ H. exists d0. split; [|apply bound_later_refl].
  by apply lookup_app_l_Some.
Qed.

Lemma heap_grows_alter (n ref : nat) (f : pydict -> pydict) (h : list pydict) :
  (n <= ref)%nat -> heap_grows n h (alter f ref h).
Proof.
  intros Hn. split; [by rewrite length_alter|].
  intros r d Hr H. exists d. split; [|apply bound_later_refl].
  rewrite list_lookup_alter_ne; [done | lia].
Qed.

Lemma getitem_Ok (ref : nat) (k : string) (st : state) (v : pyval) :
  getitem ref k st = Ok v ->
  exists d, heap st !! ref = Some d /\ dict_get k d = Some v.
Proof.
  unfold getitem. intros H%subscript_Ok.
  destruct (heap st !! ref) as [d|] eqn:E.
  - exists d. split; [done|].
    by rewrite (list_lookup_total_correct _ _ _ E) in H.
  - rewrite list_lookup_total_alt, E in H. done.
Qed.

Lemma append_boundElements_Ok (ref : nat) (entry : pyval) (st st' : state) :
  append_boundElements ref entry st = Ok st' ->
  exists d l,
    heap st !! ref = Some d /\
    dict_get "boundElements" d = Some (VList l) /\
    st' = setitem ref "boundElements" (VList (l ++ [entry])) st.
Proof.
  unfold append_boundElements. intros (v & Hv & H)%bind_Ok.
  apply getitem_Ok in Hv as (d & Hd & Hget).
  destruct v; try done. injection H as <-. eauto.
Qed.

Lemma append_arrow_grows (n ref : nat) (line_id : string) (st st' : state) :
  append_boundElements ref (bound_element "arrow" line_id) st = Ok st' ->
  heap_grows n (heap st) (heap st').
Proof.
  intros (d & l & Hd & Hget & ->)%append_boundElements_Ok. simpl.
  split; [by rewrite length_alter|].
  intros r d0 _ Hd0. destruct (decide (r = ref)) as [->|Hne].
  - assert (d0 = d) as -> by congruence.
    exists (add_arrows [bound_element "arrow" line_id] d). split.
    + rewrite list_lookup_alter, Hd, decide_True by done. simpl.
      unfold add_arrows. by rewrite Hget.
    + exists [bound_element "arrow" line_id].
      split; [|done]. constructor; [by exists line_id | constructor].
  - rewrite list_lookup_alter_ne by done. exists d0.
    split; [done | apply bound_later_refl].
Qed.

(** ** The phases of one iteration *)

Arguments _element_id : simpl never.
#[local] Opaque random_id.
Arguments make_rect_elt : simpl never.
Arguments make_image_elt : simpl never.
Arguments make_image_file_elt : simpl never.
Arguments make_text_elt : simpl never.
Arguments make_line_elt : simpl never.
Arguments bound_element : simpl never.

(** Reads the fields of a state written as a chain of updates. *)
Ltac st_simpl :=
  cbn [heap elements files svg_xc_map shape_bounds shape_elt_map bounds draws
       ticks set_heap set_elements set_files set_svg_xc_map set_shape_bounds
       set_shape_elt_map set_bounds set_draws set_ticks setitem alloc
       append_element fst snd] in *.

Lemma _element_id_eq (st st' : state) (id : string) :
  _element_id st = (id, st') ->
  id = (_element_id st).1 /\ st' = set_draws (draws st + 21) st.
Proof. intros H. rewrite H. split; [done|]. by injection H as _ <-. Qed.

Lemma rect_phase_Ok xc_id now f st o st' :
  rect_phase xc_id now f st = Ok (o, st') ->
  match g_rect f with
  | None => o = None /\ st' = st
  | Some g =>
      exists b, shape_Bounds g = Ok b /\ o = Some (List.length (heap st)) /\
        st' = mkState (heap st ++ [make_rect_elt xc_id b now]) (elements st)
                (files st) (svg_xc_map st) (<[xc_id := b]> (shape_bounds st))
                (<[xc_id := List.length (heap st)]> (shape_elt_map st))
                (Some b) (draws st) (ticks st)
  end.
Proof.
  unfold rect_phase. destruct (g_rect f); [|by intros [= <- <-]].
  intros (b & Hb & H)%bind_Ok. injection H as <- <-. by exists b.
Qed.

Lemma image_phase_Ok xc_id now f st o st' :
  image_phase xc_id now f st = Ok (o, st') ->
  match g_image f with
  | None => o = None /\ st' = st
  | Some g =>
      exists b data,
        shape_Bounds g = Ok b /\ get g "href" = Some data /\
        o = Some (List.length (heap st), _image_id data,
                  make_image_file_elt (_image_id data) data now) /\
        st' = mkState (heap st ++ [make_image_elt xc_id b now (_image_id data)])
                (elements st) (files st) (svg_xc_map st)
                (<[xc_id := b]> (shape_bounds st))
                (<[xc_id := List.length (heap st)]> (shape_elt_map st))
                (Some b) (draws st) (ticks st)
  end.
Proof.
  unfold image_phase. destruct (g_image f) as [g|]; [|by intros [= <- <-]].
  intros (b & Hb & H)%bind_Ok. apply bind_Ok in H as (data & Hdata & H).
  destruct (get g "href") as [data'|]; [|done]. injection Hdata as ->.
  injection H as <- <-. by exists b, data.
Qed.

Lemma text_phase_Ok now f st o st' :
  text_phase now f st = Ok (o, st') ->
  match g_text f with
  | None => o = None /\ st' = st
  | Some g =>
      exists t b,
        text g = Some t /\ bounds st = Some b /\
        let text_id := (_element_id st).1 in
        let font_size := font_size_of (get_default g "style" EmptyString) in
        o = Some (List.length (heap st), text_id, font_size) /\
        st' = mkState
                (heap st ++ [make_text_elt text_id b font_size (strip t) now])
                (elements st) (files st) (svg_xc_map st) (shape_bounds st)
                (shape_elt_map st) (bounds st) (draws st + 21) (ticks st)
  end.
Proof.
  unfold text_phase. destruct (g_text f) as [g|]; [|by intros [= <- <-]].
  change (_element_id st) with ((_element_id st).1, set_draws (draws st + 21) st).
  cbv beta iota.
  intros (x & _ & H)%bind_Ok. apply bind_Ok in H as (y & _ & H).
  apply bind_Ok in H as (tv & Htv & H). apply bind_Ok in H as (b & Hb & H).
  destruct (text g) as [t|]; [|done]. injection Htv as <-.
  simpl in Hb. injection H as <- <-. exists t, b.
  destruct (bounds st) as [b'|] eqn:Eb; [|done]. injection Hb as ->.
  split_and!; try done. unfold alloc, set_heap, set_draws. simpl.
  by rewrite Eb.
Qed.

Lemma add_arrows_line arrows line_id sb eb pts sid eid now :
  add_arrows arrows (make_line_elt line_id sb eb pts sid eid now)
  = make_line_elt line_id sb eb pts sid eid now.
Proof. reflexivity. Qed.

Lemma add_arrows_text arrows text_id b fs tv now :
  add_arrows arrows (make_text_elt text_id b fs tv now)
  = make_text_elt text_id b fs tv now.
Proof. reflexivity. Qed.

Lemma line_phase_Ok item_id now f st o st' :
  line_phase item_id now f st = Ok (o, st') ->
  match g_line f with
  | None => o = None /\ st' = st
  | Some g =>
      exists s m sid eid sb eb pts,
        item_id = Some s /\ re_search endpoints_re s = Some m /\
        svg_xc_map st !! Some (group m 1) = Some sid /\
        svg_xc_map st !! Some (group m 2) = Some eid /\
        match get g "d" with
        | None => straight_line st sid eid
        | Some path_coords => cubic_path path_coords
        end = Ok (sb, eb, pts) /\
        o = Some (List.length (heap st)) /\
        heap st' !! List.length (heap st)
        = Some (make_line_elt (_element_id st).1 sb eb pts sid eid now) /\
        List.length (heap st') = S (List.length (heap st)) /\
        heap_grows (List.length (heap st)) (heap st) (heap st') /\
        st' = mkState (heap st') (elements st) (files st) (svg_xc_map st)
                (shape_bounds st) (shape_elt_map st) (bounds st)
                (draws st + 21) (ticks st)
  end.
Proof.
  unfold line_phase. destruct (g_line f) as [g|]; [|by intros [= <- <-]].
  change (_element_id st) with ((_element_id st).1, set_draws (draws st + 21) st).
  cbv beta iota.
  intros (s & Hs & H)%bind_Ok. destruct item_id as [s'|]; [|done].
  injection Hs as ->.
  apply bind_Ok in H as (m & Hm & H).
  destruct (re_search endpoints_re s) as [m'|] eqn:Em; [|done].
  injection Hm as ->.
  apply bind_Ok in H as (sid & Hsid%subscript_Ok & H).
  apply bind_Ok in H as (eid & Heid%subscript_Ok & H).
  apply bind_Ok in H as ([[sb eb] pts] & Hgeo & H).
  apply bind_Ok in H as (r1 & Hr1%subscript_Ok & H).
  apply bind_Ok in H as (st1 & H1 & H).
  apply bind_Ok in H as (r2 & Hr2%subscript_Ok & H).
  apply bind_Ok in H as (st2 & H2 & H). injection H as <- <-.
  exists s, m, sid, eid, sb, eb, pts.
  pose proof (append_arrow_grows (S (List.length (heap st))) _ _ _ _ H1) as G1.
  pose proof (append_arrow_grows (S (List.length (heap st))) _ _ _ _ H2) as G2.
  pose proof (heap_grows_trans _ _ _ _ G1 G2) as [L G].
  apply append_boundElements_Ok in H1 as (d1 & l1 & _ & _ & ->).
  apply append_boundElements_Ok in H2 as (d2 & l2 & _ & _ & ->).
  st_simpl. rewrite ?length_alter, ?length_app in *. cbn [List.length] in *.
  split_and!; try done.
  - destruct (G (List.length (heap st))
                (make_line_elt (_element_id st).1 sb eb pts sid eid now))
      as (d' & Hd' & (a & _ & ->)); [lia | by apply list_lookup_middle |].
    by rewrite add_arrows_line in Hd'.
  - lia.
  - split; [rewrite !length_alter, length_app; simpl; lia|].
    intros r d Hr Hd. apply (G r d); [lia | by apply lookup_app_l_Some].
Qed.

(** The state in which the phases of a group start: its identifier is
    drawn and registered, and the clock is read. *)
Lemma process_item_Ok st item st' :
  process_item st item = Ok st' ->
  String.eqb (tag item) g_tag = true ->
  let xc_id := (_element_id st).1 in
  let now := time (ticks st) in
  let st0 :=
    set_ticks (S (ticks st))
      (set_svg_xc_map (<[get item "id" := xc_id]> (svg_xc_map st))
         (set_draws (draws st + 21) st)) in
  exists f o_r st_r o_i st_i o_t st_t o_l st_l st_b,
    find_node_and_text (children item) nothing_found = Ok f /\
    rect_phase xc_id now f st0 = Ok (o_r, st_r) /\
    image_phase xc_id now f st_r = Ok (o_i, st_i) /\
    text_phase now f st_i = Ok (o_t, st_t) /\
    line_phase (get item "id") now f st_t = Ok (o_l, st_l) /\
    bind_phase xc_id o_r o_i o_t st_l = Ok st_b /\
    st' = append_phase o_r o_i o_t o_l st_b.
Proof.
  unfold process_item. intros H E. rewrite E in H.
  change (_element_id st) with ((_element_id st).1, set_draws (draws st + 21) st) in H.
  cbv beta iota zeta in H.
  apply bind_Ok in H as (f & Hf & H).
  apply bind_Ok in H as ([o_r st_r] & Hr & H).
  apply bind_Ok in H as ([o_i st_i] & Hi & H).
  apply bind_Ok in H as ([o_t st_t] & Ht & H).
  apply bind_Ok in H as ([o_l st_l] & Hl & H).
  apply bind_Ok in H as (st_b & Hb & H). injection H as <-.
  by exists f, o_r, st_r, o_i, st_i, o_t, st_t, o_l, st_l, st_b.
Qed.

Lemma process_item_other st item :
  String.eqb (tag item) g_tag = false -> process_item st item = Ok st.
Proof. unfold process_item. by intros ->. Qed.

Lemma bind_phase_grows n rect_id o_r o_i o_t st st' :
  bind_phase rect_id o_r o_i o_t st = Ok st' ->
  (forall r, o_r = Some r -> (n <= r)%nat) ->
  (forall i x y, o_i = Some (i, x, y) -> (n <= i)%nat) ->
  (forall t x y, o_t = Some (t, x, y) -> (n <= t)%nat) ->
  heap_grows n (heap st) (heap st') /\
  List.length (heap st') = List.length (heap st) /\
  elements st' = elements st /\ files st' = files st /\
  svg_xc_map st' = svg_xc_map st /\ shape_bounds st' = shape_bounds st /\
  shape_elt_map st' = shape_elt_map st /\ bounds st' = bounds st /\
  ticks st' = ticks st.
Proof.
  unfold bind_phase. intros H Hr Hi Ht.
  destruct o_t as [[[t text_id] font_size]|];
    [|injection H as <-; split_and!; try done; apply heap_grows_refl].
  pose proof (Ht _ _ _ eq_refl) as Hnt.
  destruct o_r as [r|].
  - pose proof (Hr _ eq_refl) as Hnr.
    apply bind_Ok in H as (st1 & H1 & H). injection H as <-.
    apply append_boundElements_Ok in H1 as (d & l & _ & _ & ->). st_simpl.
    rewrite !length_alter. split_and!; try done.
    eapply heap_grows_trans; by apply heap_grows_alter.
  - destruct o_i as [[[i x] y]|];
      [|injection H as <-; split_and!; try done; apply heap_grows_refl].
    pose proof (Hi _ _ _ eq_refl) as Hni.
    change (_element_id st) with ((_element_id st).1, set_draws (draws st + 21) st) in H.
    cbv beta iota zeta in H.
    apply bind_Ok in H as (y0 & _ & H). apply bind_Ok in H as (h & _ & H).
    injection H as <-. st_simpl. rewrite !length_alter. split_and!; try done.
    eapply heap_grows_trans; [|by apply heap_grows_alter].
    eapply heap_grows_trans; by apply heap_grows_alter.
Qed.

Lemma append_phase_fields o_r o_i o_t o_l st :
  heap (append_phase o_r o_i o_t o_l st) = heap st /\
  svg_xc_map (append_phase o_r o_i o_t o_l st) = svg_xc_map st /\
  shape_bounds (append_phase o_r o_i o_t o_l st) = shape_bounds st /\
  shape_elt_map (append_phase o_r o_i o_t o_l st) = shape_elt_map st /\
  bounds (append_phase o_r o_i o_t o_l st) = bounds st.
Proof.
  unfold append_phase.
  destruct o_r, o_i as [[[]]|], o_t as [[[]]|], o_l; done.
Qed.

(** What each phase does to the fields the later statements read. *)
Lemma rect_phase_fields n xc_id now f st o st' :
  rect_phase xc_id now f st = Ok (o, st') ->
  o = option_map (fun _ => List.length (heap st)) (g_rect f) /\
  List.length (heap st') = (List.length (heap st) + present (g_rect f))%nat /\
  heap_grows n (heap st) (heap st') /\
  svg_xc_map st' = svg_xc_map st /\ elements st' = elements st /\
  files st' = files st /\ ticks st' = ticks st.
Proof.
  intros H%rect_phase_Ok. destruct (g_rect f) as [g|].
  - destruct H as (b & _ & -> & ->). st_simpl. rewrite length_app.
    split_and!; try done; apply heap_grows_alloc.
  - destruct H as [-> ->]. cbn.
    split_and!; try done; try lia; apply heap_grows_refl.
Qed.

Lemma image_phase_fields n xc_id now f st o st' :
  image_phase xc_id now f st = Ok (o, st') ->
  option_map (fun x => x.1.1) o
  = option_map (fun _ => List.length (heap st)) (g_image f) /\
  List.length (heap st') = (List.length (heap st) + present (g_image f))%nat /\
  heap_grows n (heap st) (heap st') /\
  svg_xc_map st' = svg_xc_map st /\ elements st' = elements st /\
  files st' = files st /\ ticks st' = ticks st /\
  match g_image f with
  | Some g =>
      exists data x, get g "href" = Some data /\
        o = Some (x, _image_id data,
                  make_image_file_elt (_image_id data) data now)
  | None => o = None
  end.
Proof.
  intros H%image_phase_Ok. destruct (g_image f) as [g|].
  - destruct H as (b & data & _ & Hdata & -> & ->). st_simpl.
    rewrite length_app.
    split_and!; try done; try apply heap_grows_alloc. by eexists _, _.
  - destruct H as [-> ->]. cbn.
    split_and!; try done; try lia; apply heap_grows_refl.
Qed.

Lemma text_phase_fields n now f st o st' :
  text_phase now f st = Ok (o, st') ->
  option_map (fun x => x.1.1) o
  = option_map (fun _ => List.length (heap st)) (g_text f) /\
  List.length (heap st') = (List.length (heap st) + present (g_text f))%nat /\
  heap_grows n (heap st) (heap st') /\
  svg_xc_map st' = svg_xc_map st /\ elements st' = elements st /\
  files st' = files st /\ ticks st' = ticks st.
Proof.
  intros H%text_phase_Ok. destruct (g_text f) as [g|].
  - destruct H as (t & b & _ & _ & -> & ->). st_simpl. rewrite length_app.
    split_and!; try done; apply heap_grows_alloc.
  - destruct H as [-> ->]. cbn.
    split_and!; try done; try lia; apply heap_grows_refl.
Qed.

Lemma line_phase_fields item_id now f st o st' :
  line_phase item_id now f st = Ok (o, st') ->
  o = option_map (fun _ => List.length (heap st)) (g_line f) /\
  List.length (heap st') = (List.length (heap st) + present (g_line f))%nat /\
  heap_grows (List.length (heap st)) (heap st) (heap st') /\
  svg_xc_map st' = svg_xc_map st /\ elements st' = elements st /\
  files st' = files st /\ ticks st' = ticks st.
Proof.
  intros H%line_phase_Ok. destruct (g_line f) as [g|].
  - destruct H as (s & m & sid & eid & sb & eb & pts & _ & _ & _ & _ & _
                   & -> & _ & L & G & ->). st_simpl.
    split_and!; try done. cbn. lia.
  - destruct H as [-> ->]. cbn.
    split_and!; try done; try lia; apply heap_grows_refl.
Qed.

Lemma append_phase_elements o_r o_i o_t o_l st :
  elements (append_phase o_r o_i o_t o_l st)
  = elements st ++ option_list o_r
    ++ option_list (option_map (fun x => x.1.1) o_i)
    ++ option_list (option_map (fun x => x.1.1) o_t) ++ option_list o_l.
Proof.
  unfold append_phase.
  destruct o_r, o_i as [[[]]|], o_t as [[[]]|], o_l; cbn;
    by rewrite <- ?app_assoc, ?app_nil_r.
Qed.

Lemma append_phase_files o_r o_i o_t o_l st :
  files (append_phase o_r o_i o_t o_l st)
  = match o_i with
    | Some (_, image_file_id, image_file_elt) =>
        dict_set image_file_id (VDict image_file_elt) (files st)
    | None => files st
    end.
Proof.
  unfold append_phase. by destruct o_r, o_i as [[[]]|], o_t as [[[]]|], o_l.
Qed.

Lemma option_list_seq {A : Type} (o : option A) (n : nat) :
  option_list (option_map (fun _ => n) o) = seq n (present o).
Proof. by destruct o. Qed.

(** What a successful iteration leaves behind. *)
Lemma process_item_summary st item st' :
  process_item st item = Ok st' ->
  String.eqb (tag item) g_tag = true ->
  exists f,
    contents item = Ok f /\
    svg_xc_map st' = <[get item "id" := (_element_id st).1]> (svg_xc_map st) /\
    heap_grows (List.length (heap st)) (heap st) (heap st') /\
    List.length (heap st') = (List.length (heap st) + n_elements f)%nat /\
    elements st' = elements st ++ seq (List.length (heap st)) (n_elements f) /\
    files st'
    = match g_image f with
      | Some g =>
          match get g "href" with
          | Some data =>
              dict_set (_image_id data)
                (VDict (make_image_file_elt (_image_id data) data
                          (time (ticks st)))) (files st)
          | None => files st
          end
      | None => files st
      end.
Proof.
  intros H Htag.
  destruct (process_item_Ok _ _ _ H Htag)
    as (f & o_r & st_r & o_i & st_i & o_t & st_t & o_l & st_l & st_b
        & Hf & Hr & Hi & Ht & Hl & Hb & ->).
  exists f. split; [done|].
  set (n := List.length (heap st)).
  apply (rect_phase_fields n) in Hr as (Hor & Lr & Gr & Mr & Er & Fr & _).
  apply (image_phase_fields n) in Hi as (Hoi & Li & Gi & Mi & Ei & Fi & _ & Himg).
  apply (text_phase_fields n) in Ht as (Hot & Lt & Gt & Mt & Et & Ft & _).
  apply line_phase_fields in Hl as (Hol & Ll & Gl & Ml & El & Fl & _).
  st_simpl. fold n in Lr, Hor.
  destruct (bind_phase_grows n _ _ _ _ _ _ Hb)
    as (Gb & Lb & Eb & Fb & Mb & _).
  { intros r ->. destruct (g_rect f); [|done]. injection Hor as ->. done. }
  { intros i x y ->. cbn in Hoi. destruct (g_image f); [|done].
    injection Hoi as ->. lia. }
  { intros t x y ->. cbn in Hot. destruct (g_text f); [|done].
    injection Hot as ->. lia. }
  destruct (append_phase_fields o_r o_i o_t o_l st_b) as (-> & -> & _).
  rewrite append_phase_elements, append_phase_files.
  unfold n_elements. split_and!.
  - congruence.
  - eapply heap_grows_trans; [apply Gr|].
    eapply heap_grows_trans; [apply Gi|].
    eapply heap_grows_trans; [apply Gt|].
    eapply heap_grows_trans; [|apply Gb].
    eapply heap_grows_le; [|apply Gl]. lia.
  - lia.
  - rewrite Eb, El, Et, Ei, Er, Hor, Hoi, Hot, Hol, !option_list_seq.
    rewrite Lt, Li, Lr, !seq_app, <- !app_assoc. by rewrite !Nat.add_assoc.
  - rewrite Fb, Fl, Ft, Fi, Fr. destruct (g_image f) as [g|].
    + destruct Himg as (data & x & -> & ->). done.
    + by subst o_i.
Qed.

(** ** The main loop *)

Lemma later_refl st : later st st.
Proof. split_and!; [apply heap_grows_refl | done | done]. Qed.

Lemma later_trans st1 st2 st3 : later st1 st2 -> later st2 st3 -> later st1 st3.
Proof.
  intros (G1 & F1 & M1) (G2 & F2 & M2). split_and!; [|by auto..].
  eapply heap_grows_trans; [apply G1|].
  eapply heap_grows_le; [|apply G2]. apply G1.
Qed.

Lemma process_item_later st item st' :
  process_item st item = Ok st' ->
  later st st' /\ (consistent st -> consistent st').
Proof.
  intros H. destruct (String.eqb (tag item) g_tag) eqn:Htag.
  - destruct (process_item_summary _ _ _ H Htag)
      as (f & _ & Hmap & G & L & E & F).
    assert (forall k, k ∈ dict_keys (files st) -> k ∈ dict_keys (files st'))
      as Hkeys.
    { intros k Hk. rewrite F. destruct (g_image f) as [g|]; [|done].
      destruct (get g "href"); [|done]. rewrite dict_keys_set.
      case_decide; [done|]. apply elem_of_app. by left. }
    split; [split_and!; [done | done |]|].
    + intros k Hk. rewrite Hmap.
      destruct (decide (get item "id" = k)) as [->|Hne].
      * rewrite lookup_insert_eq. eauto.
      * by rewrite lookup_insert_ne.
    + intros [He Hf]. split.
      * rewrite E, He, L, seq_app. done.
      * rewrite F. destruct (g_image f) as [g|]; [|done].
        destruct (get g "href"); [|done]. by apply dict_set_NoDup.
  - rewrite process_item_other in H by done. injection H as <-.
    split; [apply later_refl | done].
Qed.

Lemma main_loop_app pre post st :
  main_loop (pre ++ post) st = bind (main_loop pre st) (main_loop post).
Proof.
  revert st. induction pre as [|item pre IH]; intros st; [done|].
  cbn. destruct (process_item st item); [apply IH | done].
Qed.

Lemma main_loop_later items st st' :
  main_loop items st = Ok st' ->
  later st st' /\ (consistent st -> consistent st').
Proof.
  revert st. induction items as [|item items IH]; intros st H.
  - injection H as <-. split; [apply later_refl | done].
  - cbn in H. apply bind_Ok in H as (st1 & H1 & H).
    apply process_item_later in H1 as [L1 C1]. apply IH in H as [L2 C2].
    split; [by eapply later_trans | auto].
Qed.

Lemma consistent_initial : consistent initial_state.
Proof. split; [done | constructor]. Qed.

Lemma model_of_elements st :
  consistent st -> m_elements (model_of st) = heap st.
Proof.
  intros [E _]. cbn. rewrite E. apply list_eq. intros i.
  rewrite list_lookup_fmap.
  destruct (decide (i < List.length (heap st))%nat) as [Hlt|Hge].
  - rewrite lookup_seq_lt by done. cbn.
    destruct (lookup_lt_is_Some_2 (heap st) i Hlt) as [d Hd].
    rewrite Hd. f_equal. by apply list_lookup_total_correct.
  - rewrite lookup_seq_ge by lia. cbn. symmetry. apply lookup_ge_None. lia.
Qed.

(** A translation that returns has gone through every group: the state in
    which it visits [item], the state the iteration leaves, and the final
    state the model is read from. *)
Lemma from_svg_history root st item m :
  visits root st item -> from_svg root = Ok m ->
  exists st2 st3,
    process_item st item = Ok st2 /\ later st2 st3 /\
    consistent st /\ consistent st2 /\ consistent st3 /\
    m_elements m = heap st3 /\ m_files m = files st3.
Proof.
  intros (svg & pre & post & Hsvg & Hitems & Hpre) H.
  unfold from_svg in H. rewrite Hsvg, Hitems, main_loop_app, Hpre in H.
  cbn in H. apply bind_Ok in H as (st3 & H & Hm). injection Hm as <-.
  apply bind_Ok in H as (st2 & H2 & H3).
  apply main_loop_later in Hpre as [_ Cpre].
  pose proof (Cpre consistent_initial) as C1.
  pose proof (process_item_later _ _ _ H2) as [_ C2].
  apply main_loop_later in H3 as [L3 C3].
  exists st2, st3. split_and!; auto using model_of_elements.
Qed.

(** A failing iteration ends the translation: nothing is returned. *)
Lemma from_svg_raise root st item e :
  visits root st item -> process_item st item = Raise e ->
  from_svg root = Raise e.
Proof.
  intros (svg & pre & post & Hsvg & Hitems & Hpre) H.
  unfold from_svg. rewrite Hsvg, Hitems, main_loop_app, Hpre. cbn.
  by rewrite H.
Qed.

(** An element of the final state is the one the iteration left, with the
    connectors of later groups bound to it. *)
Lemma later_lookup st st' r d :
  later st st' -> heap st !! r = Some d ->
  exists d', heap st' !! r = Some d' /\ bound_later d d'.
Proof.
  intros ([_ G] & _) Hd. apply G; [|done]. by eapply lookup_lt_Some.
Qed.

(** ** Labels bound to rectangles *)

Lemma filter_arrows kind id l :
  kind <> "arrow"%string -> Forall is_arrow_entry l ->
  List.filter (is_bound_element kind id) l = [].
Proof.
  intros Hk. induction 1 as [|v l [line_id ->] _ IH]; [done|].
  cbn [List.filter]. unfold bound_element at 1. cbn [is_bound_element].
  destruct (String.eqb "arrow" kind) eqn:E.
  - apply String.eqb_eq in E. congruence.
  - done.
Qed.

Lemma is_bound_element_eq kind id : is_bound_element kind id (bound_element kind id) = true.
Proof. unfold bound_element. cbn. by rewrite !String.eqb_refl. Qed.

Lemma is_bound_element_ne kind id id' :
  id <> id' -> is_bound_element kind id' (bound_element kind id) = false.
Proof.
  intros Hne. unfold bound_element. cbn. rewrite String.eqb_refl.
  apply String.eqb_neq in Hne. by rewrite Hne.
Qed.

(** The iteration of a group with a rectangle and a label leaves the
    rectangle with one text entry after the connectors bound to it so far,
    and the label with the rectangle as its container. *)
Lemma rect_label_step st item st2 f g_r g_t :
  process_item st item = Ok st2 ->
  String.eqb (tag item) g_tag = true ->
  contents item = Ok f -> g_rect f = Some g_r -> g_text f = Some g_t ->
  exists b b' arrows text_id tv,
    Forall is_arrow_entry arrows /\
    heap st2 !! List.length (heap st)
    = Some (dict_set "boundElements"
              (VList (arrows ++ [bound_element "text" text_id]))
              (make_rect_elt (_element_id st).1 b (time (ticks st)))) /\
    heap st2 !! (List.length (heap st) + 1 + present (g_image f))%nat
    = Some (dict_set "containerId" (VStr (_element_id st).1)
              (make_text_elt text_id b'
                 (font_size_of (get_default g_t "style" EmptyString)) tv
                 (time (ticks st)))).
Proof.
  intros H Htag Hf Hgr Hgt.
  destruct (process_item_Ok _ _ _ H Htag)
    as (f' & o_r & st_r & o_i & st_i & o_t & st_t & o_l & st_l & st_b
        & Hf' & Hr & Hi & Ht & Hl & Hb & ->).
  unfold contents in Hf. assert (f' = f) as -> by congruence.
  set (n := List.length (heap st)).
  apply rect_phase_Ok in Hr. rewrite Hgr in Hr.
  destruct Hr as (b & _ & -> & ->).
  apply (image_phase_fields (S n)) in Hi as (_ & Li & Gi & _).
  apply text_phase_Ok in Ht. rewrite Hgt in Ht.
  destruct Ht as (tv & b' & _ & _ & -> & ->).
  apply line_phase_fields in Hl as (_ & Ll & Gl & _).
  st_simpl. rewrite length_app in Li. cbn [List.length] in Li.
  rewrite length_app in Gl, Ll. cbn [List.length] in Gl, Ll.
  (* the rectangle and the label when the label is bound *)
  destruct Gi as [_ Gi].
  destruct (Gi n (make_rect_elt (_element_id st).1 b (time (ticks st))))
    as (d1 & Hd1 & B1); [lia | by apply list_lookup_middle |].
  destruct Gl as [_ Gl].
  destruct (Gl n d1) as (d2 & Hd2 & B2);
    [lia | by apply lookup_app_l_Some |].
  destruct (Gl (List.length (heap st_i))
              (make_text_elt (_element_id st_i).1 b'
                 (font_size_of (get_default g_t "style" EmptyString))
                 (strip tv) (time (ticks st))))
    as (d3 & Hd3 & (a3 & _ & ->)); [lia | by apply list_lookup_middle |].
  rewrite add_arrows_text in Hd3.
  pose proof (bound_later_trans _ _ _ B1 B2) as (arrows & Harrows & ->).
  clear H. unfold bind_phase in Hb. cbv beta iota in Hb.
  apply bind_Ok in Hb as (st1 & H1 & Hb). apply Ok_inj in Hb as <-.
  apply append_boundElements_Ok in H1 as (d & l & Hd & Hl & ->).
  unfold n in Hd2. rewrite Hd2 in Hd. apply (inj Some) in Hd as <-.
  rewrite add_arrows_boundElements in Hl.
  change (dict_get "boundElements" (make_rect_elt (_element_id st).1 b (time (ticks st))))
    with (Some (VList [])) in Hl.
  cbn [app] in Hl. assert (l = arrows) as -> by congruence.
  rewrite (proj1 (append_phase_fields _ _ _ _ _)).
  st_simpl.
  exists b, b', arrows, (_element_id st_i).1, (strip tv).
  split; [done|]. split.
  - assert (List.length (heap st_i) <> n) as Hne by lia.
    rewrite list_lookup_alter_ne by done.
    rewrite list_lookup_alter, decide_True by done. unfold n. rewrite Hd2.
    cbn [fmap option_fmap option_map]. rewrite dict_set_add_arrows.
    reflexivity.
  - assert (List.length (heap st) <> List.length (heap st_i)) as Hne by lia.
    replace (n + 1 + present (g_image f))%nat with (List.length (heap st_i))
      by lia.
    rewrite list_lookup_alter, decide_True by done.
    rewrite list_lookup_alter_ne by done. rewrite Hd3. reflexivity.
Qed.

Lemma tag_eqb item : tag item = g_tag -> String.eqb (tag item) g_tag = true.
Proof. intros ->. apply String.eqb_refl. Qed.

Lemma count_bound_text label_id id' before after :
  Forall is_arrow_entry before -> Forall is_arrow_entry after ->
  count_bound "text" id'
    (Some (VList ((before ++ [bound_element "text" label_id]) ++ after)))
  = if String.eqb label_id id' then 1%nat else 0%nat.
Proof.
  intros Hb Ha. cbn [count_bound].
  rewrite !List.filter_app, !filter_arrows by done.
  cbn [List.filter app]. unfold bound_element at 1. cbn [is_bound_element].
  change (String.eqb "type" "type") with true.
  change (String.eqb "text" "text") with true.
  change (String.eqb "id" "id") with true. cbn [andb].
  rewrite (filter_arrows "text" id' after) by done.
  by destruct (String.eqb label_id id').
Qed.

(** C3. A unit group with a rectangle and a label: in the returned model
    the rectangle's [boundElements] holds exactly one entry
    [{"type": "text", "id": label_id}] for the label's id (and no text
    entry of another id), and the label's [containerId] is the rectangle's
    id, which is the id drawn for the group. *)
Theorem rect_label_bound root st item m f g_r g_t :
  visits root st item -> from_svg root = Ok m ->
  tag item = g_tag -> contents item = Ok f ->
  g_rect f = Some g_r -> g_text f = Some g_t ->
  exists rect label label_id,
    let rect_id := (_element_id st).1 in
    m_elements m !! List.length (heap st) = Some rect /\
    m_elements m !! (List.length (heap st) + 1 + present (g_image f))%nat
    = Some label /\
    dict_get "type" rect = Some (VStr "rectangle") /\
    dict_get "id" rect = Some (VStr rect_id) /\
    dict_get "type" label = Some (VStr "text") /\
    dict_get "id" label = Some (VStr label_id) /\
    count_bound "text" label_id (dict_get "boundElements" rect) = 1%nat /\
    (forall id', id' <> label_id ->
                 count_bound "text" id' (dict_get "boundElements" rect) = 0%nat) /\
    dict_get "containerId" label = Some (VStr rect_id).
Proof.
  intros Hv Hm Htag%tag_eqb Hf Hgr Hgt.
  destruct (from_svg_history _ _ _ _ Hv Hm)
    as (st2 & st3 & H2 & L & _ & _ & _ & -> & _).
  destruct (rect_label_step _ _ _ _ _ _ H2 Htag Hf Hgr Hgt)
    as (b & b' & arrows & text_id & tv & Harrows & Hrect & Hlabel).
  destruct (later_lookup _ _ _ _ L Hrect) as (rect & Hr3 & (a1 & Ha1 & ->)).
  destruct (later_lookup _ _ _ _ L Hlabel) as (label & Hl3 & (a2 & Ha2 & ->)).
  eexists _, _, text_id. cbv zeta.
  split; [exact Hr3|]. split; [exact Hl3|].
  assert (add_arrows a2
            (dict_set "containerId" (VStr (_element_id st).1)
               (make_text_elt text_id b'
                  (font_size_of (get_default g_t "style" EmptyString)) tv
                  (time (ticks st))))
          = dict_set "containerId" (VStr (_element_id st).1)
              (make_text_elt text_id b'
                 (font_size_of (get_default g_t "style" EmptyString)) tv
                 (time (ticks st)))) as -> by reflexivity.
  rewrite !add_arrows_get, !dict_get_set_ne by discriminate.
  rewrite add_arrows_boundElements, !dict_get_set_eq.
  split; [reflexivity|]. split; [reflexivity|]. split; [reflexivity|].
  split; [reflexivity|]. split; [|split; [|reflexivity]].
  - rewrite count_bound_text by assumption. by rewrite String.eqb_refl.
  - intros id' Hne. rewrite count_bound_text by assumption.
    destruct (String.eqb text_id id') eqn:E; [|reflexivity].
    apply String.eqb_eq in E. congruence.
Qed.

(** ** The names of an edge *)






(** ** Identifiers *)

#[local] Transparent random_id.

Lemma length_string_of_list_ascii (l : list ascii) :
  String.length (string_of_list_ascii l) = List.length l.
Proof. induction l as [|c l IH]; cbn; [done | by rewrite IH]. Qed.

Lemma IDCHARS_length : List.length IDCHARS = 62%nat.
Proof. reflexivity. Qed.

(** The alphabet is the 26 upper-case letters, the 26 lower-case letters and
    the 10 digits, each once. *)
Lemma IDCHARS_alphabet :
  NoDup IDCHARS /\
  forall c, c ∈ IDCHARS <->
    let n := nat_of_ascii c in
    (65 <= n <= 90 \/ 97 <= n <= 122 \/ 48 <= n <= 57)%nat.
Proof.
  split.
  - apply (bool_decide_unpack _). vm_compute. exact I.
  - intros c. cbv zeta. split.
    + intros Hc. apply list_elem_of_In in Hc.
      repeat (destruct Hc as [<-|Hc]; [vm_compute; lia|]). destruct Hc.
    + intros Hn. rewrite <- (ascii_nat_embedding c).
      assert (nat_of_ascii c < 123)%nat as Hlt by lia.
      revert Hn. generalize (nat_of_ascii c) Hlt. clear c Hlt. intros n Hlt Hn.
      apply list_elem_of_In.
      do 123 (destruct n as [|n]; [first [lia | vm_compute; tauto]|]). lia.
Qed.

(** X1. An element identifier has 21 characters, all of the alphabet, and
    drawing it moves the generator on by 21 draws and changes nothing
    else. *)
Theorem element_id_shape st :
  String.length (_element_id st).1 = 21%nat /\
  Forall (fun c => c ∈ IDCHARS) (list_ascii_of_string (_element_id st).1) /\
  (_element_id st).2 = set_draws (draws st + 21) st.
Proof.
  unfold _element_id, random_id. cbn [fst snd]. split_and!; [| |reflexivity].
  - by rewrite length_string_of_list_ascii, length_map, length_seq.
  - rewrite list_ascii_of_string_of_list_ascii. apply Forall_forall.
    intros c Hc. apply list_elem_of_In, in_map_iff in Hc as (i & <- & _).
    apply list_elem_of_In, nth_In. rewrite IDCHARS_length.
    apply Nat.mod_upper_bound. lia.
Qed.

#[local] Opaque random_id.

(** ** The children of the canvas *)

Lemma main_loop_groups items st :
  main_loop items st = main_loop (List.filter is_group items) st.
Proof.
  revert st. induction items as [|item items IH]; intros st; [done|].
  cbn [List.filter]. unfold is_group at 1.
  destruct (String.eqb (tag item) g_tag) eqn:E.
  - cbn [main_loop]. destruct (process_item st item); [apply IH | done].
  - cbn [main_loop]. rewrite process_item_other by done. apply IH.
Qed.

(** X2. The translation reads the group children of the canvas and nothing
    else of it: two documents whose canvases have the same groups, in the
    same order, translate alike, whatever other children, attributes or
    text the canvases have. *)
Theorem from_svg_groups_only root root' svg svg' :
  canvas root = Some svg -> canvas root' = Some svg' ->
  List.filter is_group (children svg) = List.filter is_group (children svg') ->
  from_svg root = from_svg root'.
Proof.
  unfold canvas, from_svg. intros -> -> H.
  by rewrite (main_loop_groups (children svg)), H, <- main_loop_groups.
Qed.

(** ** What is found in a group *)

Lemma find_shape_found elts f :
  g_text (find_shape elts f) = g_text f /\
  g_line (find_shape elts f) = g_line f /\
  (forall r, g_rect (find_shape elts f) = Some r ->
     g_rect f = Some r \/ has_tag "rect" r = true /\ r ∈ elts) /\
  (forall i, g_image (find_shape elts f) = Some i ->
     g_image f = Some i \/ has_tag "image" i = true /\ i ∈ elts) /\
  (is_Some (g_rect f) -> is_Some (g_rect (find_shape elts f))) /\
  (is_Some (g_image f) -> is_Some (g_image (find_shape elts f))).
Proof.
  induction elts as [|elt rest (IHt & IHl & IHr & IHi & IHsr & IHsi)];
    cbn [find_shape].
  - split_and!; auto.
  - change (String.eqb (tag elt) (svg_ns +:+ "rect")) with (has_tag "rect" elt).
    change (String.eqb (tag elt) (svg_ns +:+ "image")) with (has_tag "image" elt).
    destruct (has_tag "rect" elt) eqn:Er.
    { cbn [g_rect g_line g_text g_image]. split_and!; auto.
      intros r [= <-]. right. split; [done | by left]. }
    destruct (has_tag "image" elt) eqn:Ei.
    { cbn [g_rect g_line g_text g_image]. split_and!; auto.
      intros i [= <-]. right. split; [done | by left]. }
    split_and!; auto.
    + intros r Hr. destruct (IHr r Hr) as [?|[? ?]]; [by left|].
      right. split; [done | by right].
    + intros i Hi. destruct (IHi i Hi) as [?|[? ?]]; [by left|].
      right. split; [done | by right].
Qed.

Lemma find_node_and_text_found subitems : forall f0 f,
  find_node_and_text subitems f0 = Ok f ->
  g_text f = match last (List.filter (has_tag "text") subitems) with
             | Some e => Some e
             | None => g_text f0
             end /\
  g_line f = match last (List.filter (has_tag "path") subitems) with
             | Some e => Some e
             | None => g_line f0
             end /\
  (forall r, g_rect f = Some r ->
     g_rect f0 = Some r \/
     has_tag "rect" r = true /\
     exists c, c ∈ subitems /\ is_shape_container c = true /\ r ∈ children c) /\
  (forall i, g_image f = Some i ->
     g_image f0 = Some i \/
     has_tag "image" i = true /\
     exists c, c ∈ subitems /\ is_shape_container c = true /\ i ∈ children c) /\
  ((is_Some (g_rect f0) \/ is_Some (g_image f0) \/
    exists c, c ∈ subitems /\ is_shape_container c = true) ->
   is_Some (g_rect f) \/ is_Some (g_image f)).
Proof.
  induction subitems as [|c rest IH]; intros f0 f H.
  - apply Ok_inj in H as <-. split_and!; try done; [by left | by left |].
    intros [?|[?|(c & Hc & _)]]; [by left | by right | inversion Hc].
  - cbn [find_node_and_text] in H.
    change (String.eqb (tag c) g_tag
            && String.eqb (get_default c "class" EmptyString) "shape")
      with (is_shape_container c) in H.
    change (String.eqb (tag c) (svg_ns +:+ "text")) with (has_tag "text" c) in H.
    change (String.eqb (tag c) (svg_ns +:+ "path")) with (has_tag "path" c) in H.
    cbn [List.filter].
    destruct (is_shape_container c) eqn:Ec.
    + (* a shape container is no text and no path *)
      assert (has_tag "text" c = false /\ has_tag "path" c = false) as [-> ->].
      { unfold is_shape_container in Ec. apply andb_prop in Ec as [Ec _].
        apply String.eqb_eq in Ec. unfold has_tag. rewrite Ec. by split. }
      destruct (find_shape_found (children c) f0)
        as (Ft & Fl & Fr & Fi & Fsr & Fsi).
      set (f' := find_shape (children c) f0) in *.
      assert (find_node_and_text rest f' = Ok f /\
              (is_Some (g_rect f') \/ is_Some (g_image f'))) as [H' Hsome].
      { destruct (g_rect f') eqn:E1; [split; [exact H | left; eauto]|].
        destruct (g_image f') eqn:E2; [split; [exact H | right; eauto] | done]. }
      apply IH in H' as (Ht & Hl & Hr & Hi & Hs).
      rewrite Ft in Ht. rewrite Fl in Hl. split_and!; [exact Ht | exact Hl | | |].
      * intros r Hgr. destruct (Hr r Hgr) as [Hold|(Htag & c' & Hc' & Hrest)].
        -- destruct (Fr r Hold) as [?|[? ?]]; [by left|]. right.
           split; [done|]. exists c. split_and!; [by left | done | done].
        -- right. split; [done|]. exists c'. split; [by right | done].
      * intros i Hgi. destruct (Hi i Hgi) as [Hold|(Htag & c' & Hc' & Hrest)].
        -- destruct (Fi i Hold) as [?|[? ?]]; [by left|]. right.
           split; [done|]. exists c. split_and!; [by left | done | done].
        -- right. split; [done|]. exists c'. split; [by right | done].
      * intros _. apply Hs. destruct Hsome; [by left | by right; left].
    + destruct (has_tag "text" c) eqn:Et.
      * assert (has_tag "path" c = false) as ->.
        { unfold has_tag in *. apply String.eqb_eq in Et. by rewrite Et. }
        apply IH in H as (Ht & Hl & Hr & Hi & Hs).
        cbn [g_rect g_line g_text g_image] in *. split_and!.
        -- rewrite last_cons. by destruct (last (List.filter (has_tag "text") rest)).
        -- exact Hl.
        -- intros r Hgr. destruct (Hr r Hgr) as [?|(? & c' & ? & ?)]; [by left|].
           right. split; [done|]. exists c'. split; [by right | done].
        -- intros i Hgi. destruct (Hi i Hgi) as [?|(? & c' & ? & ?)]; [by left|].
           right. split; [done|]. exists c'. split; [by right | done].
        -- intros [?|[?|(c' & [->|Hc']%elem_of_cons & Hsc)]]; [by auto..| |].
           ++ congruence.
           ++ apply Hs. right. right. by exists c'.
      * destruct (has_tag "path" c) eqn:Ep.
        -- apply IH in H as (Ht & Hl & Hr & Hi & Hs).
           cbn [g_rect g_line g_text g_image] in *. split_and!.
           ++ exact Ht.
           ++ rewrite last_cons.
              by destruct (last (List.filter (has_tag "path") rest)).
           ++ intros r Hgr. destruct (Hr r Hgr) as [?|(? & c' & ? & ?)]; [by left|].
              right. split; [done|]. exists c'. split; [by right | done].
           ++ intros i Hgi. destruct (Hi i Hgi) as [?|(? & c' & ? & ?)]; [by left|].
              right. split; [done|]. exists c'. split; [by right | done].
           ++ intros [?|[?|(c' & [->|Hc']%elem_of_cons & Hsc)]]; [by auto..| |].
              ** congruence.
              ** apply Hs. right. right. by exists c'.
        -- apply IH in H as (Ht & Hl & Hr & Hi & Hs). split_and!.
           ++ exact Ht.
           ++ exact Hl.
           ++ intros r Hgr. destruct (Hr r Hgr) as [?|(? & c' & ? & ?)]; [by left|].
              right. split; [done|]. exists c'. split; [by right | done].
           ++ intros i Hgi. destruct (Hi i Hgi) as [?|(? & c' & ? & ?)]; [by left|].
              right. split; [done|]. exists c'. split; [by right | done].
           ++ intros [?|[?|(c' & [->|Hc']%elem_of_cons & Hsc)]]; [by auto..| |].
              ** congruence.
              ** apply Hs. right. right. by exists c'.
Qed.

(** X3. What the loop finds in a group: the label is the last [text] child
    and the curve the last [path] child; a rectangle or image that is found
    is a [rect] or [image] child of one of the group's shape containers;
    and a group with a shape container has a rectangle or an image. *)
Theorem contents_found item f :
  contents item = Ok f ->
  g_text f = last (List.filter (has_tag "text") (children item)) /\
  g_line f = last (List.filter (has_tag "path") (children item)) /\
  (forall r, g_rect f = Some r ->
     has_tag "rect" r = true /\
     exists c, c ∈ children item /\ is_shape_container c = true /\ r ∈ children c) /\
  (forall i, g_image f = Some i ->
     has_tag "image" i = true /\
     exists c, c ∈ children item /\ is_shape_container c = true /\ i ∈ children c) /\
  ((exists c, c ∈ children item /\ is_shape_container c = true) ->
   is_Some (g_rect f) \/ is_Some (g_image f)).
Proof.
  intros (Ht & Hl & Hr & Hi & Hs)%find_node_and_text_found.
  cbn [nothing_found g_rect g_line g_text g_image] in *. split_and!.
  - rewrite Ht. by destruct (last (List.filter (has_tag "text") (children item))).
  - rewrite Hl. by destruct (last (List.filter (has_tag "path") (children item))).
  - intros r Hgr. by destruct (Hr r Hgr).
  - intros i Hgi. by destruct (Hi i Hgi).
  - intros Hc. apply Hs. by right; right.
Qed.

Lemma find_shape_none elts f :
  g_rect (find_shape elts f) = None -> g_image (find_shape elts f) = None ->
  Forall (fun x => has_tag "rect" x = false /\ has_tag "image" x = false) elts.
Proof.
  induction elts as [|elt rest IH]; cbn [find_shape]; [constructor|].
  change (String.eqb (tag elt) (svg_ns +:+ "rect")) with (has_tag "rect" elt).
  change (String.eqb (tag elt) (svg_ns +:+ "image")) with (has_tag "image" elt).
  destruct (has_tag "rect" elt) eqn:Er; [done|].
  destruct (has_tag "image" elt) eqn:Ei; [done|].
  intros Hr Hi. constructor; [done | by apply IH].
Qed.

Lemma find_node_and_text_raise subitems : forall f0 e,
  find_node_and_text subitems f0 = Raise e ->
  e = ValueError shape_without_rect_or_image /\
  exists c, c ∈ subitems /\ is_shape_container c = true /\
    Forall (fun x => has_tag "rect" x = false /\ has_tag "image" x = false)
           (children c).
Proof.
  induction subitems as [|c rest IH]; intros f0 e H; [done|].
  cbn [find_node_and_text] in H.
  change (String.eqb (tag c) g_tag
          && String.eqb (get_default c "class" EmptyString) "shape")
    with (is_shape_container c) in H.
  assert (forall f1, find_node_and_text rest f1 = Raise e ->
            e = ValueError shape_without_rect_or_image /\
            exists c0, c0 ∈ c :: rest /\ is_shape_container c0 = true /\
              Forall (fun x => has_tag "rect" x = false /\ has_tag "image" x = false)
                     (children c0)) as Hrest.
  { intros f1 (-> & c0 & Hc0 & Hs)%IH. split; [done|]. exists c0.
    split; [by right | done]. }
  destruct (is_shape_container c) eqn:Ec.
  - destruct (g_rect (find_shape (children c) f0)) eqn:E1; [by eapply Hrest|].
    destruct (g_image (find_shape (children c) f0)) eqn:E2; [by eapply Hrest|].
    injection H as <-. split; [done|]. exists c.
    split_and!; [by left | done | by eapply find_shape_none].
  - destruct (String.eqb (tag c) (svg_ns +:+ "text")); [by eapply Hrest|].
    destruct (String.eqb (tag c) (svg_ns +:+ "path")); by eapply Hrest.
Qed.

(** X4. The search in a group fails in one way only: with the error of a
    shape container that has no [rect] and no [image] child; such a
    container is among the children of the group, and the translation of
    the document ends with that error. *)
Theorem missing_shape root st item e :
  visits root st item -> is_group item = true -> contents item = Raise e ->
  e = ValueError shape_without_rect_or_image /\
  from_svg root = Raise e /\
  exists c, c ∈ children item /\ is_shape_container c = true /\
    Forall (fun x => has_tag "rect" x = false /\ has_tag "image" x = false)
           (children c).
Proof.
  intros Hv Hg He. destruct (find_node_and_text_raise _ _ _ He) as [-> Hc].
  split_and!; [done | | done].
  eapply from_svg_raise; [exact Hv|].
  unfold process_item. unfold is_group in Hg. rewrite Hg.
  unfold contents in He. unfold _element_id. cbn [fst snd]. by rewrite He.
Qed.

(** ** The elements a group makes *)

Definition heap_agrees (h h' : list pydict) : Prop :=
  forall r d, h !! r = Some d -> exists d', h' !! r = Some d' /\ agrees d d'.

Lemma stable_type : stable_key "type".
Proof. unfold stable_key. split_and!; discriminate. Qed.

Lemma stable_id : stable_key "id".
Proof. unfold stable_key. split_and!; discriminate. Qed.

Lemma agrees_refl d : agrees d d.
Proof. by intros k _. Qed.

Lemma agrees_type d0 d : agrees d0 d -> dict_get "type" d = dict_get "type" d0.
Proof. intros A. apply A. left. apply stable_type. Qed.

Lemma agrees_trans d1 d2 d3 : agrees d1 d2 -> agrees d2 d3 -> agrees d1 d3.
Proof.
  intros H1 H2 k Hk. rewrite H2, H1; [done | done |].
  destruct Hk as [Hk|[-> Hk]]; [by left | right].
  split; [done|]. by rewrite (agrees_type _ _ H1).
Qed.

Lemma bound_later_agrees d d' : bound_later d d' -> agrees d d'.
Proof.
  intros B k [(Hk & _)|[-> _]]; by apply (bound_later_get _ _ _ B).
Qed.

Lemma heap_agrees_refl h : heap_agrees h h.
Proof. intros r d Hd. exists d. split; [done | apply agrees_refl]. Qed.

Lemma heap_agrees_trans h1 h2 h3 :
  heap_agrees h1 h2 -> heap_agrees h2 h3 -> heap_agrees h1 h3.
Proof.
  intros H1 H2 r d Hd. destruct (H1 r d Hd) as (d2 & Hd2 & A1).
  destruct (H2 r d2 Hd2) as (d3 & Hd3 & A2). exists d3.
  split; [done | by eapply agrees_trans].
Qed.

Lemma heap_grows_agrees h h' :
  heap_grows (List.length h) h h' -> heap_agrees h h'.
Proof.
  intros [_ G] r d Hd.
  destruct (G r d (lookup_lt_Some _ _ _ Hd) Hd) as (d' & Hd' & B).
  exists d'. split; [done | by apply bound_later_agrees].
Qed.

(** Writing the field [k] of the element at [ref] keeps what [agrees]
    speaks of, when [k] is not stable and, for [y], the element is a
    label. *)
Lemma alter_agrees (h : list pydict) ref k v :
  ~ stable_key k ->
  (k = "y"%string ->
   forall d, h !! ref = Some d -> dict_get "type" d = Some (VStr "text")) ->
  heap_agrees h (alter (dict_set k v) ref h).
Proof.
  intros Hk Hy r d Hd. destruct (decide (ref = r)) as [->|Hne].
  - exists (dict_set k v d). split.
    + by rewrite list_lookup_alter, decide_True, Hd by done.
    + intros k' [Hs|[-> Hty]]; apply dict_get_set_ne.
      * by intros ->.
      * intros ->. by apply Hty, Hy.
  - exists d. split; [by rewrite list_lookup_alter_ne | apply agrees_refl].
Qed.

Lemma alter_lookup_type (h : list pydict) ref k v r d :
  k <> "type"%string -> alter (dict_set k v) ref h !! r = Some d ->
  exists d0, h !! r = Some d0 /\ dict_get "type" d = dict_get "type" d0.
Proof.
  intros Hk. destruct (decide (ref = r)) as [->|Hne].
  - rewrite list_lookup_alter, decide_True by done.
    destruct (h !! r) as [d0|]; [|done]. cbn. intros [= <-]. exists d0.
    split; [done | by apply dict_get_set_ne].
  - rewrite list_lookup_alter_ne by done. intros Hd. by exists d.
Qed.

Lemma bind_phase_agrees rect_id o_r o_i o_t st st' :
  bind_phase rect_id o_r o_i o_t st = Ok st' ->
  (forall t x y d, o_t = Some (t, x, y) -> heap st !! t = Some d ->
                   dict_get "type" d = Some (VStr "text")) ->
  heap_agrees (heap st) (heap st').
Proof.
  unfold bind_phase. intros H Htext.
  destruct o_t as [[[t text_id] font_size]|];
    [|apply Ok_inj in H as <-; apply heap_agrees_refl].
  destruct o_r as [r|].
  - apply bind_Ok in H as (st1 & H1 & H). apply Ok_inj in H as <-.
    apply append_boundElements_Ok in H1 as (d & l & _ & _ & ->). st_simpl.
    eapply heap_agrees_trans; apply alter_agrees;
      first [unfold stable_key; tauto | discriminate].
  - destruct o_i as [[[i x] y]|];
      [|apply Ok_inj in H as <-; apply heap_agrees_refl].
    unfold _element_id in H. cbv beta iota zeta in H.
    apply bind_Ok in H as (y0 & _ & H). apply bind_Ok in H as (h & _ & H).
    apply Ok_inj in H as <-. st_simpl.
    eapply heap_agrees_trans; [|apply alter_agrees; [unfold stable_key; tauto|]].
    + eapply heap_agrees_trans; apply alter_agrees;
        first [unfold stable_key; tauto | discriminate].
    + intros _ d Hd.
      apply alter_lookup_type in Hd as (d1 & Hd1 & ->); [|discriminate].
      apply alter_lookup_type in Hd1 as (d2 & Hd2 & ->); [|discriminate].
      by eapply Htext.
Qed.

Lemma rect_phase_created xc_id now f st o st' :
  rect_phase xc_id now f st = Ok (o, st') ->
  exists lr,
    heap st' = heap st ++ lr /\
    match g_rect f with
    | None => lr = [] /\ bounds st' = bounds st
    | Some g =>
        exists b, shape_Bounds g = Ok b /\ lr = [make_rect_elt xc_id b now] /\
                  bounds st' = Some b
    end /\
    ticks st' = ticks st.
Proof.
  intros H%rect_phase_Ok. destruct (g_rect f) as [g|].
  - destruct H as (b & Hb & -> & ->). st_simpl. eexists. split; [reflexivity|].
    split; [|reflexivity]. by exists b.
  - destruct H as [-> ->]. exists []. by rewrite app_nil_r.
Qed.

Lemma image_phase_created xc_id now f st o st' :
  image_phase xc_id now f st = Ok (o, st') ->
  exists li,
    heap st' = heap st ++ li /\
    match g_image f with
    | None => li = [] /\ bounds st' = bounds st
    | Some g =>
        exists b data,
          shape_Bounds g = Ok b /\ get g "href" = Some data /\
          li = [make_image_elt xc_id b now (_image_id data)] /\
          bounds st' = Some b
    end /\
    ticks st' = ticks st.
Proof.
  intros H%image_phase_Ok. destruct (g_image f) as [g|].
  - destruct H as (b & data & Hb & Hd & -> & ->). st_simpl.
    eexists. split; [reflexivity|]. split; [|reflexivity]. by exists b, data.
  - destruct H as [-> ->]. exists []. by rewrite app_nil_r.
Qed.

Lemma text_phase_created now f st o st' :
  text_phase now f st = Ok (o, st') ->
  exists lt,
    heap st' = heap st ++ lt /\
    match g_text f with
    | None => lt = [] /\ o = None
    | Some g =>
        exists text_id b t,
          text g = Some t /\ bounds st = Some b /\
          lt = [make_text_elt text_id b
                  (font_size_of (get_default g "style" EmptyString))
                  (strip t) now] /\
          option_map (fun x => x.1.1) o = Some (List.length (heap st))
    end.
Proof.
  intros H%text_phase_Ok. destruct (g_text f) as [g|].
  - destruct H as (t & b & Ht & Hb & -> & ->). st_simpl.
    eexists. split; [reflexivity|]. by eexists _, b, t.
  - destruct H as [-> ->]. exists []. by rewrite app_nil_r.
Qed.

Lemma line_phase_created item_id now f st o st' :
  line_phase item_id now f st = Ok (o, st') ->
  exists ll,
    List.length (heap st') = (List.length (heap st) + List.length ll)%nat /\
    heap_agrees (heap st ++ ll) (heap st') /\
    match g_line f with
    | None => ll = []
    | Some g =>
        exists line_id sb eb pts sid tid,
          ll = [make_line_elt line_id sb eb pts sid tid now]
    end.
Proof.
  intros H%line_phase_Ok. destruct (g_line f) as [g|].
  - destruct H as (s & m & sid & tid & sb & eb & pts & _ & _ & _ & _ & _ & _
                   & Hline & L & G & _).
    eexists. split_and!; [| |by eexists _, sb, eb, pts, sid, tid].
    + rewrite L. cbn. lia.
    + intros r d Hd. destruct (decide (r < List.length (heap st))%nat) as [Hlt|Hge].
      * rewrite lookup_app_l in Hd by done.
        destruct G as [_ G]. destruct (G r d Hlt Hd) as (d' & Hd' & B).
        exists d'. split; [done | by apply bound_later_agrees].
      * assert (r = List.length (heap st)) as ->.
        { apply lookup_lt_Some in Hd. rewrite length_app in Hd. cbn in Hd. lia. }
        rewrite list_lookup_middle in Hd by done. apply (inj Some) in Hd as <-.
        eexists. split; [exact Hline | apply agrees_refl].
  - destruct H as [-> ->]. exists []. rewrite app_nil_r.
    split_and!; [cbn; lia | apply heap_agrees_refl | done].
Qed.

(** The elements of a group are in the store when its iteration ends,
    after those of the earlier groups, with their stable fields as made. *)
Lemma process_item_created st item st2 f :
  process_item st item = Ok st2 -> is_group item = true ->
  contents item = Ok f ->
  exists news,
    created st f news /\ List.length news = n_elements f /\
    forall j d0, news !! j = Some d0 ->
      exists d, heap st2 !! (List.length (heap st) + j)%nat = Some d /\
                agrees d0 d.
Proof.
  intros H Htag Hf.
  destruct (process_item_Ok _ _ _ H Htag)
    as (f' & o_r & st_r & o_i & st_i & o_t & st_t & o_l & st_l & st_b
        & Hf' & Hr & Hi & Ht & Hl & Hb & ->).
  clear H. unfold contents in Hf. rewrite Hf in Hf'. apply Ok_inj in Hf' as <-.
  apply rect_phase_created in Hr as (lr & Er & Hr & Tr).
  apply image_phase_created in Hi as (li & Ei & Hi & Ti).
  apply text_phase_created in Ht as (lt & Et & Ht).
  apply line_phase_created in Hl as (ll & Ll & Al & Hl).
  apply bind_phase_agrees in Hb.
  2:{ intros t x y d -> Hd. destruct (g_text f) as [g|]; [|by destruct Ht].
      destruct Ht as (text_id & b & tv & _ & _ & -> & Hot). cbn in Hot.
      apply (inj Some) in Hot as ->.
      destruct (Al (List.length (heap st_i))
                  (make_text_elt text_id b
                     (font_size_of (get_default g "style" EmptyString))
                     (strip tv) (time (ticks st)))) as (d' & Hd' & A).
      { rewrite Et. apply lookup_app_l_Some. by apply list_lookup_middle. }
      rewrite Hd in Hd'. apply (inj Some) in Hd' as <-.
      by rewrite (agrees_type _ _ A). }
  rewrite (proj1 (append_phase_fields _ _ _ _ _)).
  st_simpl. rewrite Et, Ei, Er in Al. rewrite <- !app_assoc in Al.
  exists (lr ++ li ++ lt ++ ll). split_and!.
  - exists lr, li, lt, ll. split; [done|]. split_and!.
    + destruct (g_rect f) as [g|]; [|tauto].
      destruct Hr as (b & ? & ? & _). by exists b.
    + destruct (g_image f) as [g|]; [|tauto].
      destruct Hi as (b & data & ? & ? & ? & _). by exists b, data.
    + destruct (g_text f) as [g|]; [|tauto].
      destruct Ht as (text_id & b & t & Htext & Hbounds & -> & _).
      exists text_id, b, t. split_and!; [done | | done].
      unfold label_bounds. destruct (g_image f) as [gi|].
      * destruct Hi as (bi & data & -> & _ & _ & Hbi). congruence.
      * destruct Hi as [_ Hbi]. rewrite Hbi in Hbounds.
        destruct (g_rect f) as [gr|].
        -- destruct Hr as (br & -> & _ & Hbr). congruence.
        -- destruct Hr as [_ Hbr]. congruence.
    + exact Hl.
  - rewrite !length_app. unfold n_elements.
    destruct (g_rect f) as [g1|]; [destruct Hr as (? & _ & -> & _)|destruct Hr as [-> _]];
    (destruct (g_image f) as [g2|];
       [destruct Hi as (? & ? & _ & _ & -> & _)|destruct Hi as [-> _]]);
    (destruct (g_text f) as [g3|];
       [destruct Ht as (? & ? & ? & _ & _ & -> & _)|destruct Ht as [-> _]]);
    (destruct (g_line f) as [g4|];
       [destruct Hl as (? & ? & ? & ? & ? & ? & ->)|subst ll]); reflexivity.
  - intros j d0 Hj.
    destruct (Al (List.length (heap st) + j)%nat d0) as (d1 & Hd1 & A1).
    { rewrite lookup_app_r by lia.
      replace (List.length (heap st) + j - List.length (heap st))%nat with j by lia.
      exact Hj. }
    destruct (Hb _ _ Hd1) as (d2 & Hd2 & A2).
    exists d2. split; [exact Hd2 | by eapply agrees_trans].
Qed.

(** The elements of a group in a returned model. *)
Lemma from_svg_created root st item m f :
  visits root st item -> from_svg root = Ok m ->
  is_group item = true -> contents item = Ok f ->
  exists news,
    created st f news /\ List.length news = n_elements f /\
    forall j d0, news !! j = Some d0 ->
      exists d, m_elements m !! (List.length (heap st) + j)%nat = Some d /\
                agrees d0 d.
Proof.
  intros Hv Hm Htag Hf.
  destruct (from_svg_history _ _ _ _ Hv Hm)
    as (st2 & st3 & H2 & L & _ & _ & _ & -> & _).
  destruct (process_item_created _ _ _ _ H2 Htag Hf) as (news & Hc & Hn & Hnews).
  exists news. split_and!; [done | done |].
  intros j d0 Hj. destruct (Hnews j d0 Hj) as (d & Hd & A).
  destruct (later_lookup _ _ _ _ L Hd) as (d' & Hd' & B).
  exists d'. split; [done|].
  eapply agrees_trans; [exact A | by apply bound_later_agrees].
Qed.

(** ** The order and the geometry of the elements *)

(** Decides that a field of a made element is kept. *)
Ltac solve_kept :=
  first [ left; unfold stable_key; split_and!; discriminate
        | right; split; [reflexivity | vm_compute; discriminate] ].

Lemma created_types st f news :
  created st f news ->
  map (dict_get "type") news
  = map (fun t => Some (VStr t)) (element_types f).
Proof.
  intros (lr & li & lt & ll & -> & Hr & Hi & Ht & Hl). unfold element_types.
  rewrite !map_app. f_equal; [|f_equal; [|f_equal]].
  - destruct (g_rect f); [destruct Hr as (? & _ & ->) | subst lr]; reflexivity.
  - destruct (g_image f); [destruct Hi as (? & ? & _ & _ & ->) | subst li];
      reflexivity.
  - destruct (g_text f); [destruct Ht as (? & ? & ? & _ & _ & ->) | subst lt];
      reflexivity.
  - destruct (g_line f); [destruct Hl as (? & ? & ? & ? & ? & ? & ->) | subst ll];
      reflexivity.
Qed.

(** X5. The elements of a group stand together in the returned model,
    after the elements of the groups before it, in the order rectangle,
    image, label, connector. *)
Theorem group_elements_order root st item m f :
  visits root st item -> from_svg root = Ok m ->
  is_group item = true -> contents item = Ok f ->
  map (dict_get "type")
      (take (n_elements f) (drop (List.length (heap st)) (m_elements m)))
  = map (fun t => Some (VStr t)) (element_types f).
Proof.
  intros Hv Hm Htag Hf.
  destruct (from_svg_created _ _ _ _ _ Hv Hm Htag Hf) as (news & Hc & Hn & Hnews).
  rewrite <- (created_types _ _ _ Hc). apply list_eq. intros j.
  rewrite !list_lookup_fmap.
  destruct (decide (j < n_elements f)%nat) as [Hlt|Hge].
  - rewrite lookup_take_lt, lookup_drop by done.
    destruct (lookup_lt_is_Some_2 news j) as [d0 Hd0]; [lia|].
    destruct (Hnews j d0 Hd0) as (d & -> & A). rewrite Hd0. cbn.
    f_equal. apply agrees_type, A.
  - rewrite lookup_take_ge by lia.
    rewrite (proj2 (lookup_ge_None news j)) by lia. done.
Qed.

Lemma int_float_get_Ok e c z :
  int_float_get e c = Ok z ->
  exists q, float_attr e c = Some q /\ z = int_of_float q.
Proof.
  unfold int_float_get, float_attr, py_float.
  destruct (get e c) as [s|]; [|done]. destruct (float s) as [q|]; [|done].
  intros [= <-]. by exists q.
Qed.

Lemma shape_Bounds_Ok g b :
  shape_Bounds g = Ok b ->
  exists x y w h,
    float_attr g "x" = Some x /\ float_attr g "y" = Some y /\
    float_attr g "width" = Some w /\ float_attr g "height" = Some h /\
    b = mkBounds (NInt (int_of_float x)) (NInt (int_of_float y))
                 (NInt (int_of_float w)) (NInt (int_of_float h)).
Proof.
  unfold shape_Bounds.
  intros (x & (qx & Hx & ->)%int_float_get_Ok & H)%bind_Ok.
  apply bind_Ok in H as (y & (qy & Hy & ->)%int_float_get_Ok & H).
  apply bind_Ok in H as (w & (qw & Hw & ->)%int_float_get_Ok & H).
  apply bind_Ok in H as (h & (qh & Hh & ->)%int_float_get_Ok & H).
  apply Ok_inj in H as <-. by exists qx, qy, qw, qh.
Qed.

Lemma created_lookup_rect st f g news :
  created st f news -> g_rect f = Some g ->
  exists b, shape_Bounds g = Ok b /\
    news !! 0%nat = Some (make_rect_elt (_element_id st).1 b (time (ticks st))).
Proof.
  intros (lr & li & lt & ll & -> & Hr & _) Hg. rewrite Hg in Hr.
  destruct Hr as (b & Hb & ->). by exists b.
Qed.

Lemma created_lookup_image st f g news :
  created st f news -> g_image f = Some g ->
  exists b data, shape_Bounds g = Ok b /\ get g "href" = Some data /\
    news !! present (g_rect f)
    = Some (make_image_elt (_element_id st).1 b (time (ticks st))
              (_image_id data)).
Proof.
  intros (lr & li & lt & ll & -> & Hr & Hi & _) Hg. rewrite Hg in Hi.
  destruct Hi as (b & data & Hb & Hd & ->). exists b, data.
  split_and!; [done | done |].
  destruct (g_rect f); [destruct Hr as (? & _ & ->) | subst lr]; reflexivity.
Qed.

Lemma created_lookup_text st f g news :
  created st f news -> g_text f = Some g ->
  exists text_id b t, text g = Some t /\ label_bounds st f = Some b /\
    news !! (present (g_rect f) + present (g_image f))%nat
    = Some (make_text_elt text_id b
              (font_size_of (get_default g "style" EmptyString)) (strip t)
              (time (ticks st))).
Proof.
  intros (lr & li & lt & ll & -> & Hr & Hi & Ht & _) Hg. rewrite Hg in Ht.
  destruct Ht as (text_id & b & t & Htext & Hb & ->). exists text_id, b, t.
  split_and!; [done | done |].
  destruct (g_rect f); [destruct Hr as (? & _ & ->) | subst lr];
    (destruct (g_image f); [destruct Hi as (? & ? & _ & _ & ->) | subst li]);
    reflexivity.
Qed.

(** X6. The rectangle of a group is an element of type [rectangle] that
    carries the identifier drawn for the group and the four attributes of
    the [rect], each read as a number and truncated to an integer. *)
Theorem rect_geometry root st item m f g :
  visits root st item -> from_svg root = Ok m ->
  is_group item = true -> contents item = Ok f -> g_rect f = Some g ->
  exists rect x y w h,
    float_attr g "x" = Some x /\ float_attr g "y" = Some y /\
    float_attr g "width" = Some w /\ float_attr g "height" = Some h /\
    m_elements m !! List.length (heap st) = Some rect /\
    dict_get "type" rect = Some (VStr "rectangle") /\
    dict_get "id" rect = Some (VStr (_element_id st).1) /\
    dict_get "x" rect = Some (VInt (int_of_float x)) /\
    dict_get "y" rect = Some (VInt (int_of_float y)) /\
    dict_get "width" rect = Some (VInt (int_of_float w)) /\
    dict_get "height" rect = Some (VInt (int_of_float h)) /\
    dict_get "points" rect = Some (VList []).
Proof.
  intros Hv Hm Htag Hf Hg.
  destruct (from_svg_created _ _ _ _ _ Hv Hm Htag Hf) as (news & Hc & _ & Hnews).
  destruct (created_lookup_rect _ _ _ _ Hc Hg) as (b & Hb & Hnew).
  destruct (shape_Bounds_Ok _ _ Hb) as (x & y & w & h & Hx & Hy & Hw & Hh & ->).
  destruct (Hnews _ _ Hnew) as (rect & Hrect & A).
  rewrite Nat.add_0_r in Hrect. exists rect, x, y, w, h.
  split_and!; try done; rewrite A by solve_kept; reflexivity.
Qed.

(** X7. The image of a group is an element of type [image], after the
    rectangle if the group has one, with the identifier drawn for the
    group, the truncated attributes of the [image], and as [fileId] the
    digest of its [href]. *)
Theorem image_geometry root st item m f g :
  visits root st item -> from_svg root = Ok m ->
  is_group item = true -> contents item = Ok f -> g_image f = Some g ->
  exists image data x y w h,
    get g "href" = Some data /\
    float_attr g "x" = Some x /\ float_attr g "y" = Some y /\
    float_attr g "width" = Some w /\ float_attr g "height" = Some h /\
    m_elements m !! (List.length (heap st) + present (g_rect f))%nat
    = Some image /\
    dict_get "type" image = Some (VStr "image") /\
    dict_get "id" image = Some (VStr (_element_id st).1) /\
    dict_get "x" image = Some (VInt (int_of_float x)) /\
    dict_get "y" image = Some (VInt (int_of_float y)) /\
    dict_get "width" image = Some (VInt (int_of_float w)) /\
    dict_get "height" image = Some (VInt (int_of_float h)) /\
    dict_get "fileId" image = Some (VStr (_image_id data)).
Proof.
  intros Hv Hm Htag Hf Hg.
  destruct (from_svg_created _ _ _ _ _ Hv Hm Htag Hf) as (news & Hc & _ & Hnews).
  destruct (created_lookup_image _ _ _ _ Hc Hg) as (b & data & Hb & Hd & Hnew).
  destruct (shape_Bounds_Ok _ _ Hb) as (x & y & w & h & Hx & Hy & Hw & Hh & ->).
  destruct (Hnews _ _ Hnew) as (image & Himage & A).
  exists image, data, x, y, w, h.
  split_and!; try done; rewrite A by solve_kept; reflexivity.
Qed.

(** ** The bounds of a label *)


(** X8. A label is laid out in the bounds of the image of its group, or
    else of its rectangle; a group with a label and no shape takes the
    bounds the last shape of an earlier group left behind. The label comes
    after the shapes of its group, its text is the text of the [text]
    element without the white space around it, and its [x] is the [x] of
    those bounds. *)
Theorem label_in_bounds root st item m f g :
  visits root st item -> from_svg root = Ok m ->
  is_group item = true -> contents item = Ok f -> g_text f = Some g ->
  exists label b t,
    text g = Some t /\ label_bounds st f = Some b /\
    m_elements m
    !! (List.length (heap st) + (present (g_rect f) + present (g_image f)))%nat
    = Some label /\
    dict_get "type" label = Some (VStr "text") /\
    dict_get "text" label = Some (VStr (strip t)) /\
    dict_get "originalText" label = Some (VStr (strip t)) /\
    dict_get "x" label = Some (VNum (b_x b)) /\
    dict_get "width" label
    = Some (VNum (b_width b
                  + NInt (font_size_of (get_default g "style" EmptyString)))%num).
Proof.
  intros Hv Hm Htag Hf Hg.
  destruct (from_svg_created _ _ _ _ _ Hv Hm Htag Hf) as (news & Hc & _ & Hnews).
  destruct (created_lookup_text _ _ _ _ Hc Hg) as (text_id & b & t & Ht & Hb & Hnew).
  destruct (Hnews _ _ Hnew) as (label & Hlabel & A).
  exists label, b, t.
  split_and!; try done; rewrite A by solve_kept; reflexivity.
Qed.

(** The bounds an iteration leaves behind are those of its last shape. *)
Lemma process_item_bounds st item st' f :
  process_item st item = Ok st' -> is_group item = true ->
  contents item = Ok f -> bounds st' = label_bounds st f.
Proof.
  intros H Htag Hf.
  destruct (process_item_Ok _ _ _ H Htag)
    as (f' & o_r & st_r & o_i & st_i & o_t & st_t & o_l & st_l & st_b
        & Hf' & Hr & Hi & Ht & Hl & Hb & ->).
  clear H. unfold contents in Hf. rewrite Hf in Hf'. apply Ok_inj in Hf' as <-.
  apply rect_phase_created in Hr as (lr & _ & Hr & _).
  apply image_phase_created in Hi as (li & _ & Hi & _).
  apply text_phase_Ok in Ht. apply line_phase_Ok in Hl.
  destruct (bind_phase_grows 0 _ _ _ _ _ _ Hb) as (_ & _ & _ & _ & _ & _ & _ & Bb & _);
    [intros; lia..|].
  rewrite (proj2 (proj2 (proj2 (proj2 (append_phase_fields _ _ _ _ _))))), Bb.
  assert (bounds st_l = bounds st_t) as ->.
  { destruct (g_line f); [|by destruct Hl as [_ ->]].
    destruct Hl as (? & ? & ? & ? & ? & ? & ? & _ & _ & _ & _ & _ & _ & _ & _ & _ & ->).
    reflexivity. }
  assert (bounds st_t = bounds st_i) as ->.
  { destruct (g_text f); [|by destruct Ht as [_ ->]].
    destruct Ht as (? & ? & _ & _ & _ & ->). reflexivity. }
  unfold label_bounds. destruct (g_image f) as [gi|].
  - destruct Hi as (bi & data & -> & _ & _ & ->). done.
  - destruct Hi as [_ ->]. destruct (g_rect f) as [gr|].
    + destruct Hr as (br & -> & _ & ->). done.
    + by destruct Hr as [_ ->].
Qed.


(** ** Connectors and the shapes they join *)











(** ** The elements of the whole model *)

Lemma process_item_types st item st2 :
  process_item st item = Ok st2 ->
  map (dict_get "type") (heap st2)
  = map (dict_get "type") (heap st)
    ++ map (fun t => Some (VStr t)) (group_types item).
Proof.
  intros H. unfold group_types. destruct (is_group item) eqn:Htag.
  2:{ unfold is_group in Htag. rewrite process_item_other in H by done.
      apply Ok_inj in H as <-. by rewrite app_nil_r. }
  destruct (process_item_summary _ _ _ H Htag) as (f & Hf & _ & [_ G] & Hlen & _).
  destruct (process_item_created _ _ _ _ H Htag Hf) as (news & Hc & Hn & Hnews).
  rewrite Hf, <- (created_types _ _ _ Hc).
  apply list_eq. intros i. rewrite !list_lookup_fmap.
  destruct (decide (i < List.length (heap st))%nat) as [Hlt|Hge].
  - rewrite lookup_app_l by (by rewrite length_fmap).
    rewrite list_lookup_fmap.
    destruct (lookup_lt_is_Some_2 _ _ Hlt) as [d Hd].
    destruct (G i d Hlt Hd) as (d' & -> & B). rewrite Hd. cbn.
    f_equal. apply bound_later_get; [done | discriminate].
  - rewrite lookup_app_r by (rewrite length_fmap; lia).
    rewrite length_fmap, list_lookup_fmap.
    destruct (news !! (i - List.length (heap st))%nat) as [d0|] eqn:Hd0.
    + destruct (Hnews _ _ Hd0) as (d & Hd & A).
      replace (List.length (heap st) + (i - List.length (heap st)))%nat with i
        in Hd by lia.
      rewrite Hd. cbn. f_equal. apply agrees_type, A.
    + apply lookup_ge_None in Hd0.
      rewrite (proj2 (lookup_ge_None (heap st2) i)) by lia. done.
Qed.

Lemma main_loop_types items : forall st st',
  main_loop items st = Ok st' ->
  map (dict_get "type") (heap st')
  = map (dict_get "type") (heap st)
    ++ map (fun t => Some (VStr t)) (List.concat (map group_types items)).
Proof.
  induction items as [|item items IH]; intros st st' H.
  - apply Ok_inj in H as <-. by rewrite app_nil_r.
  - cbn [main_loop] in H. apply bind_Ok in H as (st1 & H1 & H).
    rewrite (IH _ _ H), (process_item_types _ _ _ H1).
    cbn [map List.concat]. by rewrite map_app, app_assoc.
Qed.

(** X12: the elements of the returned model are those of the groups of the
    canvas and no others: one per rectangle, image, label and path found
    in a group, group after group in document order and, within a group,
    in the order rectangle, image, label, connector. *)
Theorem model_element_types root svg m :
  canvas root = Some svg -> from_svg root = Ok m ->
  map (dict_get "type") (m_elements m)
  = map (fun t => Some (VStr t)) (List.concat (map group_types (children svg))).
Proof.
  intros Hsvg H. unfold canvas in Hsvg. unfold from_svg in H.
  rewrite Hsvg in H. apply bind_Ok in H as (st3 & H & Hm).
  apply Ok_inj in Hm as <-.
  pose proof (main_loop_later _ _ _ H) as [_ C].
  rewrite (model_of_elements _ (C consistent_initial)).
  by rewrite (main_loop_types _ _ _ H).
Qed.

(** X13: once the iteration of a group has ended, every element in the
    model is final but for the connectors of later edges: in the returned
    model it has the same value under every key other than
    [boundElements], and its [boundElements] list, where it has one, is the
    one it had followed by entries [{"type": "arrow", "id": ...}] only. *)
Theorem earlier_elements_final root st item m st2 r d :
  visits root st item -> from_svg root = Ok m ->
  process_item st item = Ok st2 -> heap st2 !! r = Some d ->
  exists d' arrows,
    m_elements m !! r = Some d' /\
    Forall is_arrow_entry arrows /\
    (forall k, k <> "boundElements"%string -> dict_get k d' = dict_get k d) /\
    dict_get "boundElements" d'
    = match dict_get "boundElements" d with
      | Some (VList l) => Some (VList (l ++ arrows))
      | o => o
      end.
Proof.
  intros Hv Hm H2 Hd.
  destruct (from_svg_history _ _ _ _ Hv Hm)
    as (st2' & st3 & H2' & L & _ & _ & _ & -> & _).
  rewrite H2 in H2'. apply Ok_inj in H2' as <-.
  destruct (later_lookup _ _ _ _ L Hd) as (d' & Hd' & (arrows & Ha & ->)).
  exists (add_arrows arrows d), arrows. split_and!; [done | done | |].
  - intros k Hk. by apply add_arrows_get.
  - apply add_arrows_boundElements.
Qed.

(** ** Attributes and text that are missing *)






End Translation.

(** ** Examples *)

Abbreviation run_from_svg :=
  (from_svg decimal_float SHA1.hexdigest example_index example_time).

Lemma rect_label_bound_witness :
  exists m,
    run_from_svg (document [Unit_A; Unit_B]) = Ok m /\
    exists rect label label_id,
      m_elements m !! 0%nat = Some rect /\
      m_elements m !! 1%nat = Some label /\
      dict_get "type" rect = Some (VStr "rectangle") /\
      dict_get "id" rect
      = Some (VStr (_element_id example_index initial_state).1) /\
      dict_get "type" label = Some (VStr "text") /\
      dict_get "id" label = Some (VStr label_id) /\
      count_bound "text" label_id (dict_get "boundElements" rect) = 1%nat /\
      (forall id', id' <> label_id ->
         count_bound "text" id' (dict_get "boundElements" rect) = 0%nat) /\
      dict_get "containerId" label
      = Some (VStr (_element_id example_index initial_state).1).
Proof.
  eexists. split; [vm_compute; reflexivity|].
  apply (rect_label_bound decimal_float SHA1.hexdigest example_index
           example_time (document [Unit_A; Unit_B]) initial_state Unit_A _
           (mkFound
              (Some (rect_elem "12.000000" "120.000000" "132.000000" "66.000000"))
              None (Some (label_elem "A")) None)
           (rect_elem "12.000000" "120.000000" "132.000000" "66.000000")
           (label_elem "A")).
  - exists (svg_elem "svg" [] None [Unit_A; Unit_B]), [], [Unit_B].
    split_and!; reflexivity.
  - vm_compute; reflexivity.
  - reflexivity.
  - vm_compute; reflexivity.
  - reflexivity.
  - reflexivity.
Defined.

Lemma from_svg_groups_only_witness :
  run_from_svg
    (document [svg_elem "style" [] (Some "text { fill: black }") []; Unit_A;
               svg_elem "defs" [] None []; Unit_B])
  = run_from_svg
      (Elem "other" [("version", "1.1")]%string None
         [svg_elem "svg" [("width", "430")]%string None [Unit_A; Unit_B]]).
Proof.
  apply (from_svg_groups_only decimal_float SHA1.hexdigest example_index
           example_time _ _
           (svg_elem "svg" [] None
              [svg_elem "style" [] (Some "text { fill: black }"%string) [];
               Unit_A; svg_elem "defs" [] None []; Unit_B])
           (svg_elem "svg" [("width", "430")]%string None [Unit_A; Unit_B]));
    reflexivity.
Defined.

Lemma contents_found_witness :
  let f := mkFound
             (Some (rect_elem "12.000000" "120.000000" "132.000000" "66.000000"))
             None (Some (label_elem "A")) None in
  g_text f = last (List.filter (has_tag "text") (children Unit_A)) /\
  g_line f = last (List.filter (has_tag "path") (children Unit_A)) /\
  (forall r, g_rect f = Some r ->
     has_tag "rect" r = true /\
     exists c, c ∈ children Unit_A /\ is_shape_container c = true /\ r ∈ children c) /\
  (forall i, g_image f = Some i ->
     has_tag "image" i = true /\
     exists c, c ∈ children Unit_A /\ is_shape_container c = true /\ i ∈ children c) /\
  ((exists c, c ∈ children Unit_A /\ is_shape_container c = true) ->
   is_Some (g_rect f) \/ is_Some (g_image f)).
Proof. apply (contents_found Unit_A). reflexivity. Defined.

(** A group whose shape container holds a circle. *)
Definition Unit_circle : Element :=
  svg_elem "g" [("id", "Unit_C")]%string None
    [svg_elem "g" [("class", "shape")]%string None
       [svg_elem "circle" [("r", "5")]%string None []];
     label_elem "C"].

Lemma missing_shape_witness :
  ValueError shape_without_rect_or_image = ValueError shape_without_rect_or_image /\
  run_from_svg (document [Unit_A; Unit_circle])
  = Raise (ValueError shape_without_rect_or_image) /\
  exists c, c ∈ children Unit_circle /\ is_shape_container c = true /\
    Forall (fun x => has_tag "rect" x = false /\ has_tag "image" x = false)
           (children c).
Proof.
  apply (missing_shape decimal_float SHA1.hexdigest example_index example_time
           (document [Unit_A; Unit_circle])
           (match main_loop decimal_float SHA1.hexdigest example_index
                    example_time [Unit_A] initial_state with
            | Ok st => st
            | Raise _ => initial_state
            end) Unit_circle).
  - exists (svg_elem "svg" [] None [Unit_A; Unit_circle]), [Unit_A], [].
    split_and!; [reflexivity | reflexivity | vm_compute; reflexivity].
  - reflexivity.
  - reflexivity.
Defined.

(** A group with a label and no shape. *)
Definition Unit_label_only : Element :=
  svg_elem "g" [("id", "Note")]%string None [label_elem "  a note "].

(** The state in which the loop comes to the group after [Unit_A]. *)
Definition after_Unit_A : state :=
  match main_loop decimal_float SHA1.hexdigest example_index example_time
                  [Unit_A] initial_state with
  | Ok st => st
  | Raise _ => initial_state
  end.

Lemma label_in_bounds_witness :
  exists m,
    run_from_svg (document [Unit_A; Unit_label_only]) = Ok m /\
    let f := mkFound None None (Some (label_elem "  a note ")) None in
    exists label b t,
      text (label_elem "  a note ") = Some t /\
      label_bounds decimal_float after_Unit_A f = Some b /\
      m_elements m
      !! (List.length (heap after_Unit_A)
          + (present (g_rect f) + present (g_image f)))%nat
      = Some label /\
      dict_get "type" label = Some (VStr "text") /\
      dict_get "text" label = Some (VStr (strip t)) /\
      dict_get "originalText" label = Some (VStr (strip t)) /\
      dict_get "x" label = Some (VNum (b_x b)) /\
      dict_get "width" label
      = Some (VNum (b_width b
                    + NInt (font_size_of
                              (get_default (label_elem "  a note ") "style"
                                           EmptyString)))%num).
Proof.
  eexists. split; [vm_compute; reflexivity|].
  apply (label_in_bounds decimal_float SHA1.hexdigest example_index
           example_time (document [Unit_A; Unit_label_only]) after_Unit_A
           Unit_label_only).
  - exists (svg_elem "svg" [] None [Unit_A; Unit_label_only]), [Unit_A], [].
    split_and!; [reflexivity | reflexivity | vm_compute; reflexivity].
  - vm_compute; reflexivity.
  - reflexivity.
  - reflexivity.
  - reflexivity.
Defined.

(** The bounds that label is laid out in are those of [Unit_A]. *)
Example label_bounds_stale :
  label_bounds decimal_float after_Unit_A
    (mkFound None None (Some (label_elem "  a note ")) None)
  = Some (mkBounds (NInt 12) (NInt 120) (NInt 132) (NInt 66)).
Proof. vm_compute. reflexivity. Qed.



Lemma group_elements_order_witness :
  exists m,
    run_from_svg (document [Unit_A; Unit_I]) = Ok m /\
    let f :=
      mkFound None None (Some (label_elem "I"))
        (Some (image_elem "data:image/svg+xml;base64,PD94" "286.000000"
                 "120.000000" "128.000000" "128.000000")) in
    map (dict_get "type")
        (take (n_elements f)
           (drop (List.length (heap after_Unit_A)) (m_elements m)))
    = map (fun t => Some (VStr t)) (element_types f).
Proof.
  eexists. split; [vm_compute; reflexivity|].
  apply (group_elements_order decimal_float SHA1.hexdigest example_index
           example_time (document [Unit_A; Unit_I]) after_Unit_A Unit_I).
  - exists (svg_elem "svg" [] None [Unit_A; Unit_I]), [Unit_A], [].
    split_and!; [reflexivity | reflexivity | vm_compute; reflexivity].
  - vm_compute; reflexivity.
  - reflexivity.
  - reflexivity.
Defined.

Lemma rect_geometry_witness :
  exists m,
    run_from_svg (document [Unit_A; Unit_B]) = Ok m /\
    let g := rect_elem "12.000000" "120.000000" "132.000000" "66.000000" in
    exists rect x y w h,
      float_attr decimal_float g "x" = Some x /\
      float_attr decimal_float g "y" = Some y /\
      float_attr decimal_float g "width" = Some w /\
      float_attr decimal_float g "height" = Some h /\
      m_elements m !! List.length (heap initial_state) = Some rect /\
      dict_get "type" rect = Some (VStr "rectangle") /\
      dict_get "id" rect
      = Some (VStr (_element_id example_index initial_state).1) /\
      dict_get "x" rect = Some (VInt (int_of_float x)) /\
      dict_get "y" rect = Some (VInt (int_of_float y)) /\
      dict_get "width" rect = Some (VInt (int_of_float w)) /\
      dict_get "height" rect = Some (VInt (int_of_float h)) /\
      dict_get "points" rect = Some (VList []).
Proof.
  eexists. split; [vm_compute; reflexivity|].
  apply (rect_geometry decimal_float SHA1.hexdigest example_index
           example_time (document [Unit_A; Unit_B]) initial_state Unit_A _
           (mkFound
              (Some (rect_elem "12.000000" "120.000000" "132.000000" "66.000000"))
              None (Some (label_elem "A")) None)).
  - exists (svg_elem "svg" [] None [Unit_A; Unit_B]), [], [Unit_B].
    split_and!; reflexivity.
  - vm_compute; reflexivity.
  - reflexivity.
  - reflexivity.
  - reflexivity.
Defined.

Lemma image_geometry_witness :
  exists m,
    run_from_svg (document [Unit_A; Unit_I]) = Ok m /\
    let g := image_elem "data:image/svg+xml;base64,PD94" "286.000000"
               "120.000000" "128.000000" "128.000000" in
    let f := mkFound None None (Some (label_elem "I")) (Some g) in
    exists image data x y w h,
      get g "href" = Some data /\
      float_attr decimal_float g "x" = Some x /\
      float_attr decimal_float g "y" = Some y /\
      float_attr decimal_float g "width" = Some w /\
      float_attr decimal_float g "height" = Some h /\
      m_elements m !! (List.length (heap after_Unit_A) + present (g_rect f))%nat
      = Some image /\
      dict_get "type" image = Some (VStr "image") /\
      dict_get "id" image
      = Some (VStr (_element_id example_index after_Unit_A).1) /\
      dict_get "x" image = Some (VInt (int_of_float x)) /\
      dict_get "y" image = Some (VInt (int_of_float y)) /\
      dict_get "width" image = Some (VInt (int_of_float w)) /\
      dict_get "height" image = Some (VInt (int_of_float h)) /\
      dict_get "fileId" image = Some (VStr (_image_id SHA1.hexdigest data)).
Proof.
  eexists. split; [vm_compute; reflexivity|].
  apply (image_geometry decimal_float SHA1.hexdigest example_index
           example_time (document [Unit_A; Unit_I]) after_Unit_A Unit_I).
  - exists (svg_elem "svg" [] None [Unit_A; Unit_I]), [Unit_A], [].
    split_and!; [reflexivity | reflexivity | vm_compute; reflexivity].
  - vm_compute; reflexivity.
  - reflexivity.
  - reflexivity.
  - reflexivity.
Defined.


(** An edge between the two units, drawn as a straight line. *)
Definition Edge_A_B : Element := edge "(Unit_A -> Unit_B)" None.






Lemma model_element_types_witness :
  exists m,
    run_from_svg (document [Unit_A; Unit_I; edge "(Unit_A -> Unit_I)" None])
    = Ok m /\
    map (dict_get "type") (m_elements m)
    = map (fun t => Some (VStr t))
        (List.concat
           (map group_types
              (children
                 (svg_elem "svg" [] None
                    [Unit_A; Unit_I; edge "(Unit_A -> Unit_I)" None])))).
Proof.
  eexists. split; [vm_compute; reflexivity|].
  apply (model_element_types decimal_float SHA1.hexdigest example_index
           example_time
           (document [Unit_A; Unit_I; edge "(Unit_A -> Unit_I)" None])).
  - reflexivity.
  - vm_compute; reflexivity.
Defined.

Lemma earlier_elements_final_witness :
  exists m d,
    run_from_svg (document [Unit_A; Unit_B; Edge_A_B]) = Ok m /\
    heap after_Unit_A !! 0%nat = Some d /\
    exists d' arrows,
      m_elements m !! 0%nat = Some d' /\
      Forall is_arrow_entry arrows /\
      (forall k, k <> "boundElements"%string -> dict_get k d' = dict_get k d) /\
      dict_get "boundElements" d'
      = match dict_get "boundElements" d with
        | Some (VList l) => Some (VList (l ++ arrows))
        | o => o
        end.
Proof.
  eexists _, _. split; [vm_compute; reflexivity|].
  split; [vm_compute; reflexivity|].
  apply (earlier_elements_final decimal_float SHA1.hexdigest example_index
           example_time (document [Unit_A; Unit_B; Edge_A_B]) initial_state
           Unit_A _ after_Unit_A).
  - exists (svg_elem "svg" [] None [Unit_A; Unit_B; Edge_A_B]), [],
      [Unit_B; Edge_A_B].
    split_and!; reflexivity.
  - vm_compute; reflexivity.
  - vm_compute; reflexivity.
  - vm_compute; reflexivity.
Defined.






